(** * Portfolio API: a shallow embedding of [main.py] and [schemas.py]

    The handlers of the FastAPI application are embedded as Rocq
    functions.  Python [str] values are sequences of Unicode code points,
    Python dicts are finite maps, and the handlers that talk to the
    persistence gateway pass the process' world (store handle, clock, log
    of gateway calls) explicitly and return a sum when they may raise. *)

From Stdlib Require Import ZArith NArith Ascii String List Bool Lia.
From stdpp Require Import gmap strings list fin_maps.

Local Open Scope string_scope.
Local Open Scope list_scope.

(** ** Python strings *)

(** A Python [str]: the sequence of its code points. [len] is [length],
    [s[:n]] is [firstn n s], [+] and f-string juxtaposition are [++]. *)
Abbreviation pystr := (list N).

(** Source literals are written as UTF-8 text and decoded to code points. *)
Fixpoint utf8_decode (bs : list N) : pystr :=
  match bs with
  | [] => []
  | b0 :: r0 =>
      if (b0 <? 128)%N then b0 :: utf8_decode r0
      else
        match r0 with
        | [] => []
        | b1 :: r1 =>
            if (b0 <? 224)%N
            then ((b0 - 192) * 64 + (b1 - 128))%N :: utf8_decode r1
            else
              match r1 with
              | [] => []
              | b2 :: r2 =>
                  if (b0 <? 240)%N
                  then ((b0 - 224) * 4096 + (b1 - 128) * 64 + (b2 - 128))%N
                         :: utf8_decode r2
                  else
                    match r2 with
                    | [] => []
                    | b3 :: r3 =>
                        ((b0 - 240) * 262144 + (b1 - 128) * 4096
                         + (b2 - 128) * 64 + (b3 - 128))%N :: utf8_decode r3
                    end
              end
        end
  end.

Definition lit (s : string) : pystr :=
  utf8_decode (map N_of_ascii (list_ascii_of_string s)).

(** The two characters a Rocq literal cannot hold as they stand. *)
Definition NL : pystr := [10%N].
Definition DQUOTE : pystr := [34%N].

Fixpoint str_eqb (a b : pystr) : bool :=
  match a, b with
  | [], [] => true
  | x :: a', y :: b' => (x =? y)%N && str_eqb a' b'
  | _, _ => false
  end.

(** [startswith k s]: [k] is a prefix of [s]. *)
Fixpoint startswith (k s : pystr) : bool :=
  match k, s with
  | [], _ => true
  | _ :: _, [] => false
  | x :: k', y :: s' => (x =? y)%N && startswith k' s'
  end.

(** [contains k s] is Python's [k in s] on strings. *)
Fixpoint contains (k s : pystr) : bool :=
  startswith k s ||
  match s with
  | [] => false
  | _ :: s' => contains k s'
  end.

Definition ascii_lower (c : N) : N :=
  if ((65 <=? c) && (c <=? 90))%N then (c + 32)%N else c.

Definition is_ascii (c : N) : bool := (c <? 128)%N.

(** Branching on the truthiness of an [Optional[str]]: [None] and the
    empty string are falsy, every other string is truthy. *)
Definition if_truthy {A} (o : option pystr) (yes : pystr -> A) (no : A) : A :=
  match o with
  | Some (c :: s) => yes (c :: s)
  | _ => no
  end.

(** [o or d] for an [Optional[str]] [o] and a string [d]. *)
Definition py_or (o : option pystr) (d : pystr) : pystr :=
  if_truthy o (fun s => s) d.

(** [o and f(o)] in a boolean context: [f] is evaluated on a truthy [o]
    only. *)
Definition py_and (o : option pystr) (f : pystr -> bool) : bool :=
  if_truthy o f false.

(** ** Values, documents and the world *)

(** The Python values that occur in request bodies and store documents. *)
Inductive value :=
| VNone
| VBool (b : bool)
| VInt (n : Z)
| VStr (s : pystr)
| VDatetime (t : Z)
| VObjectId (oid : N)
| VList (items : list value).

(** A Python dict with string keys: a parsed JSON object, the result of
    [model_dump()], a document of the store. *)
Abbreviation dict := (gmap string value).

(** Modelled from the spec: the failure taxonomy of the Persistence Gateway
    ([database.py] is not among the sources). [StoreUnavailable] when no
    connection was established, [StoreWriteError] / [StoreReadError] when an
    operation fails against an established connection. *)
Inductive Exception :=
| StoreUnavailable
| StoreWriteError (description : pystr)
| StoreReadError (description : pystr).

(** [str(e)] *)
Definition str (e : Exception) : pystr :=
  match e with
  | StoreUnavailable => lit "StoreUnavailable"
  | StoreWriteError d => d
  | StoreReadError d => d
  end.

(** What a handler raises itself: [HTTPException(status_code, detail)]. *)
Record HTTPException := mkHTTPException { status_code : Z; detail : pystr }.

(** The document store behind the gateway: named collections of documents,
    an injected fault (when set, every operation against the connection
    fails with that description), and the next internal identifier. *)
Record Store := mkStore {
  collections : gmap string (list dict);
  fault : option pystr;
  next_oid : N
}.

(** A call into the gateway, as the log of the world records it. *)
Inductive Call :=
| CallInsert (collection : string) (data : dict)
| CallFetch (collection : string).

(** The state a request runs in: the wall clock read by
    [datetime.now(timezone.utc)], the process-wide store handle [db]
    ([None] when disconnected) and the log of gateway calls. *)
Record World := mkWorld {
  clock : Z;
  db : option Store;
  gateway_log : list Call
}.

(** A computation that may raise [E]: explicit state passing. *)
Definition M (E A : Type) : Type := World -> (E + A) * World.

(** ** The schema layer, [schemas.py] *)

Module Message.
Record t := mk {
  name : pystr;
  email : pystr;
  subject : option pystr;
  body : pystr;
  created_at : option Z
}.
End Message.

Module Interaction.
Record t := mk {
  session_id : pystr;
  event : pystr;
  value : option pystr;
  path : option pystr;
  created_at : option Z
}.
End Interaction.

Module Testimonial.
Record t := mk {
  author : pystr;
  role : option pystr;
  quote : pystr;
  avatar_url : option pystr
}.
End Testimonial.

Module Project.
Record t := mk {
  title : pystr;
  description : pystr;
  tags : list pystr;
  image_url : option pystr;
  demo_url : option pystr;
  source_url : option pystr
}.
End Project.

(** *** Field validators (pydantic v2, lax mode)

    Each returns [None] when the field fails validation. A [str] field
    accepts a string only; an [Optional[...] = None] field also accepts a
    missing key and [None]; extra keys are ignored. *)

Definition required_str (d : dict) (k : string) : option pystr :=
  match d !! k with
  | Some (VStr s) => Some s
  | _ => None
  end.

Definition optional_str (d : dict) (k : string) : option (option pystr) :=
  match d !! k with
  | None | Some VNone => Some None
  | Some (VStr s) => Some (Some s)
  | Some _ => None
  end.

Fixpoint all_str (items : list value) : option (list pystr) :=
  match items with
  | [] => Some []
  | VStr s :: rest =>
      match all_str rest with
      | Some l => Some (s :: l)
      | None => None
      end
  | _ :: _ => None
  end.

(** [List[str] = []] *)
Definition str_list (d : dict) (k : string) : option (list pystr) :=
  match d !! k with
  | None => Some []
  | Some (VList items) => all_str items
  | Some _ => None
  end.

Definition field_error {A} (k : string) (r : option A) : list string :=
  match r with
  | Some _ => []
  | None => [k]
  end.

Definition validate_Testimonial (d : dict) : list string + Testimonial.t :=
  let author := required_str d "author" in
  let role := optional_str d "role" in
  let quote := required_str d "quote" in
  let avatar_url := optional_str d "avatar_url" in
  match author, role, quote, avatar_url with
  | Some a, Some r, Some q, Some u => inr (Testimonial.mk a r q u)
  | _, _, _, _ =>
      inl (field_error "author" author ++ field_error "role" role
           ++ field_error "quote" quote ++ field_error "avatar_url" avatar_url)
  end.

Definition validate_Project (d : dict) : list string + Project.t :=
  let title := required_str d "title" in
  let description := required_str d "description" in
  let tags := str_list d "tags" in
  let image_url := optional_str d "image_url" in
  let demo_url := optional_str d "demo_url" in
  let source_url := optional_str d "source_url" in
  match title, description, tags, image_url, demo_url, source_url with
  | Some t, Some de, Some ta, Some i, Some dm, Some so =>
      inr (Project.mk t de ta i dm so)
  | _, _, _, _, _, _ =>
      inl (field_error "title" title ++ field_error "description" description
           ++ field_error "tags" tags ++ field_error "image_url" image_url
           ++ field_error "demo_url" demo_url ++ field_error "source_url" source_url)
  end.

Definition opt_value (o : option pystr) : value :=
  match o with
  | Some s => VStr s
  | None => VNone
  end.

Definition opt_datetime (o : option Z) : value :=
  match o with
  | Some t => VDatetime t
  | None => VNone
  end.

(** [Message.model_dump()] *)
Definition Message_model_dump (m : Message.t) : dict :=
  <["name" := VStr (Message.name m)]>
  (<["email" := VStr (Message.email m)]>
  (<["subject" := opt_value (Message.subject m)]>
  (<["body" := VStr (Message.body m)]>
  (<["created_at" := opt_datetime (Message.created_at m)]> ∅)))).

(** The second argument of [create_document]: a model instance or a dict. *)
Inductive Data :=
| OfModel (m : Message.t)
| OfDict (d : dict).

(** ** The persistence gateway *)

Definition to_dict (data : Data) : dict :=
  match data with
  | OfModel m => Message_model_dump m
  | OfDict d => d
  end.

Definition log_call (c : Call) (w : World) : World :=
  mkWorld (clock w) (db w) (gateway_log w ++ [c]).

(** A record's [created_at] is absent when the key is missing or [None]. *)
Definition created_at_absent (d : dict) : bool :=
  match d !! "created_at" with
  | None | Some VNone => true
  | Some _ => false
  end.

(** Modelled from the spec: [insert(collection_name, record) -> document_id]
    of the Persistence Gateway ([create_document] of [database.py], which is
    not among the sources). It fails with [StoreUnavailable] when no
    connection was established and with [StoreWriteError] on an underlying
    failure; otherwise the record's [created_at] is server-assigned if
    absent, the document receives its storage-internal identifier and joins
    the named collection. *)
Definition gateway_create_document (collection_name : string) (data : Data)
  : M Exception N :=
  fun w =>
    let w1 := log_call (CallInsert collection_name (to_dict data)) w in
    match db w with
    | None => (inl StoreUnavailable, w1)
    | Some st =>
        match fault st with
        | Some description => (inl (StoreWriteError description), w1)
        | None =>
            let d := to_dict data in
            let d := if created_at_absent d
                     then <["created_at" := VDatetime (clock w)]> d
                     else d in
            let oid := next_oid st in
            let document := <["_id" := VObjectId oid]> d in
            let stored := default [] (collections st !! collection_name) in
            let st' := mkStore
                         (<[collection_name := stored ++ [document]]> (collections st))
                         (fault st) (oid + 1)%N in
            (inr oid, mkWorld (clock w1) (Some st') (gateway_log w1))
        end
    end.

(** Modelled from the spec: [fetch_all(collection_name)] of the Persistence
    Gateway ([get_documents] of [database.py]), with the same failure
    modes; every fetched document carries its internal identifier. *)
Definition gateway_get_documents (collection_name : string)
  : M Exception (list dict) :=
  fun w =>
    let w1 := log_call (CallFetch collection_name) w in
    match db w with
    | None => (inl StoreUnavailable, w1)
    | Some st =>
        match fault st with
        | Some description => (inl (StoreReadError description), w1)
        | None => (inr (default [] (collections st !! collection_name)), w1)
        end
    end.

(** ** The API layer, [main.py] *)

(** What the framework answers: the handler's return value with status
    200, the validation errors with status 422, or the status and detail
    of the [HTTPException] the handler raised. *)
Inductive Response (A : Type) :=
| HTTP200 (body : A)
| HTTP422 (errors : list string)
| HTTPError (status : Z) (reason : pystr).
Arguments HTTP200 {A} body.
Arguments HTTP422 {A} errors.
Arguments HTTPError {A} status reason.

Definition respond {A} (r : (HTTPException + A) * World) : Response A * World :=
  match r with
  | (inr a, w) => (HTTP200 a, w)
  | (inl e, w) => (HTTPError (status_code e) (detail e), w)
  end.

Module SuggestionRequest.
Record t := mk {
  name : option pystr;
  email : option pystr;
  subject : option pystr;
  message : option pystr
}.
End SuggestionRequest.

Module SuggestionResponse.
Record t := mk { subject : pystr; message : pystr }.
End SuggestionResponse.

Module InteractionIn.
Record t := mk {
  session_id : pystr;
  event : pystr;
  value : option pystr;
  path : option pystr
}.
End InteractionIn.

(** [InteractionIn.model_dump()] *)
Definition InteractionIn_model_dump (p : InteractionIn.t) : dict :=
  <["session_id" := VStr (InteractionIn.session_id p)]>
  (<["event" := VStr (InteractionIn.event p)]>
  (<["value" := opt_value (InteractionIn.value p)]>
  (<["path" := opt_value (InteractionIn.path p)]> ∅))).

Definition validate_InteractionIn (raw : dict) : list string + InteractionIn.t :=
  let session_id := required_str raw "session_id" in
  let event := required_str raw "event" in
  let value := optional_str raw "value" in
  let path := optional_str raw "path" in
  match session_id, event, value, path with
  | Some s, Some e, Some v, Some p => inr (InteractionIn.mk s e v p)
  | _, _, _, _ =>
      inl (field_error "session_id" session_id ++ field_error "event" event
           ++ field_error "value" value ++ field_error "path" path)
  end.

(** The reply of the two write handlers: [{"status": "ok", "id": doc_id}]. *)
Record Created := mkCreated { status : pystr; id : N }.

Definition KEYWORDS : list pystr := [lit "hire"; lit "project"; lit "collab"].

(** The fallback of [get_testimonials], as written in its [if not cleaned]
    branch (lines 134-138) ... *)
Definition TESTIMONIALS_IF_EMPTY : list Testimonial.t := [
  Testimonial.mk (lit "Ava Chen") (Some (lit "Creative Director"))
    (lit "A visionary with a rare blend of artistry and engineering.")
    (Some (lit "https://i.pravatar.cc/150?img=68"));
  Testimonial.mk (lit "Liam Patel") (Some (lit "CTO, Nova Labs"))
    (lit "Turns impossible ideas into delightful realities.")
    (Some (lit "https://i.pravatar.cc/150?img=12"));
  Testimonial.mk (lit "Maya Rodríguez") (Some (lit "Founder, Helix Studio"))
    (lit "Every interaction feels like magic—truly next-level.")
    (Some (lit "https://i.pravatar.cc/150?img=32"))
].

(** ... and as written again in its [except] branch (lines 141-145). *)
Definition TESTIMONIALS_ON_EXCEPT : list Testimonial.t := [
  Testimonial.mk (lit "Ava Chen") (Some (lit "Creative Director"))
    (lit "A visionary with a rare blend of artistry and engineering.")
    (Some (lit "https://i.pravatar.cc/150?img=68"));
  Testimonial.mk (lit "Liam Patel") (Some (lit "CTO, Nova Labs"))
    (lit "Turns impossible ideas into delightful realities.")
    (Some (lit "https://i.pravatar.cc/150?img=12"));
  Testimonial.mk (lit "Maya Rodríguez") (Some (lit "Founder, Helix Studio"))
    (lit "Every interaction feels like magic—truly next-level.")
    (Some (lit "https://i.pravatar.cc/150?img=32"))
].

(** The fallback of [get_projects] in its [if not cleaned] branch
    (lines 156-181) ... *)
Definition PROJECTS_IF_EMPTY : list Project.t := [
  Project.mk (lit "Nebula UI System")
    (lit "A component library with cinematic motion and generative themes.")
    [lit "Design System"; lit "Framer Motion"; lit "AI Skinning"]
    (Some (lit "https://images.unsplash.com/photo-1517694712202-14dd9538aa97?q=80&w=1400&auto=format&fit=crop"))
    (Some (lit "#")) (Some (lit "#"));
  Project.mk (lit "Aurora Graph")
    (lit "Real-time data artistry—particles, wavefields, living charts.")
    [lit "WebGL"; lit "D3"; lit "Shaders"]
    (Some (lit "https://images.unsplash.com/photo-1507874457470-272b3c8d8ee2?q=80&w=1400&auto=format&fit=crop"))
    (Some (lit "#")) (Some (lit "#"));
  Project.mk (lit "Echo Spaces")
    (lit "Immersive 3D microsites with spatial audio and parallax.")
    [lit "Three.js"; lit "Audio"; lit "Spline"]
    (Some (lit "https://images.unsplash.com/photo-1470225620780-dba8ba36b745?q=80&w=1400&auto=format&fit=crop"))
    (Some (lit "#")) (Some (lit "#"))
].

(** ... and in its [except] branch (lines 184-209). *)
Definition PROJECTS_ON_EXCEPT : list Project.t := [
  Project.mk (lit "Nebula UI System")
    (lit "A component library with cinematic motion and generative themes.")
    [lit "Design System"; lit "Framer Motion"; lit "AI Skinning"]
    (Some (lit "https://images.unsplash.com/photo-1517694712202-14dd9538aa97?q=80&w=1400&auto=format&fit=crop"))
    (Some (lit "#")) (Some (lit "#"));
  Project.mk (lit "Aurora Graph")
    (lit "Real-time data artistry—particles, wavefields, living charts.")
    [lit "WebGL"; lit "D3"; lit "Shaders"]
    (Some (lit "https://images.unsplash.com/photo-1507874457470-272b3c8d8ee2?q=80&w=1400&auto=format&fit=crop"))
    (Some (lit "#")) (Some (lit "#"));
  Project.mk (lit "Echo Spaces")
    (lit "Immersive 3D microsites with spatial audio and parallax.")
    [lit "Three.js"; lit "Audio"; lit "Spline"]
    (Some (lit "https://images.unsplash.com/photo-1470225620780-dba8ba36b745?q=80&w=1400&auto=format&fit=crop"))
    (Some (lit "#")) (Some (lit "#"))
].

(** The [for d in docs] loop of the two listing handlers: every document
    loses its ["_id"] and is revalidated; the first one that fails raises. *)
Fixpoint clean_all {A} (validate : dict -> list string + A) (docs : list dict)
  : list string + list A :=
  match docs with
  | [] => inr []
  | d :: rest =>
      match validate (delete "_id" d) with
      | inl errors => inl errors
      | inr a =>
          match clean_all validate rest with
          | inl errors => inl errors
          | inr cleaned => inr (a :: cleaned)
          end
      end
  end.

Section Handlers.

(** [str.lower()] on a string with a character outside ASCII follows the
    Unicode tables, which are not modelled: it is a parameter. On an ASCII
    string it maps [A-Z] to [a-z]. *)
Variable unicode_lower : pystr -> pystr.

(** [EmailStr] is checked by the email-validator package: the normalised
    address, or [None] when the string is no valid address. *)
Variable validate_email : pystr -> option pystr.

(** pydantic's parser of a [datetime] field: the timestamp, or [None]
    when the value is rejected. *)
Variable validate_datetime : value -> option Z.

(** The two operations imported from [database]. *)
Variable create_document : string -> Data -> M Exception N.
Variable get_documents : string -> M Exception (list dict).

Definition lower (s : pystr) : pystr :=
  if forallb is_ascii s then map ascii_lower s else unicode_lower s.

Definition required_email (d : dict) (k : string) : option pystr :=
  match d !! k with
  | Some (VStr s) => validate_email s
  | _ => None
  end.

Definition optional_email (d : dict) (k : string) : option (option pystr) :=
  match d !! k with
  | None | Some VNone => Some None
  | Some (VStr s) =>
      match validate_email s with
      | Some e => Some (Some e)
      | None => None
      end
  | Some _ => None
  end.

Definition optional_datetime (d : dict) (k : string) : option (option Z) :=
  match d !! k with
  | None | Some VNone => Some None
  | Some v =>
      match validate_datetime v with
      | Some t => Some (Some t)
      | None => None
      end
  end.

Definition validate_Message (raw : dict) : list string + Message.t :=
  let name := required_str raw "name" in
  let email := required_email raw "email" in
  let subject := optional_str raw "subject" in
  let body := required_str raw "body" in
  let created_at := optional_datetime raw "created_at" in
  match name, email, subject, body, created_at with
  | Some n, Some e, Some s, Some b, Some c => inr (Message.mk n e s b c)
  | _, _, _, _, _ =>
      inl (field_error "name" name ++ field_error "email" email
           ++ field_error "subject" subject ++ field_error "body" body
           ++ field_error "created_at" created_at)
  end.

Definition validate_SuggestionRequest (raw : dict)
  : list string + SuggestionRequest.t :=
  let name := optional_str raw "name" in
  let email := optional_email raw "email" in
  let subject := optional_str raw "subject" in
  let message := optional_str raw "message" in
  match name, email, subject, message with
  | Some n, Some e, Some s, Some m => inr (SuggestionRequest.mk n e s m)
  | _, _, _, _ =>
      inl (field_error "name" name ++ field_error "email" email
           ++ field_error "subject" subject ++ field_error "message" message)
  end.

(** [POST /ai/suggest] *)
Definition ai_suggest (payload : SuggestionRequest.t) : SuggestionResponse.t :=
  let tone := lit "warm, professional" in
  let subj := py_or (SuggestionRequest.subject payload) (lit "Let's connect") in
  let intro_name := py_or (SuggestionRequest.name payload) (lit "there") in
  let subj :=
    if py_and (SuggestionRequest.message payload) (fun m => (120 <? length m)%nat)
    then lit "Re: Your detailed message—thank you!"
    else if py_and (SuggestionRequest.subject payload)
                   (fun s => existsb (fun k => contains k (lower s)) KEYWORDS)
    then lit "Excited to collaborate—here's a quick note"
    else subj in
  let body_hint :=
    if_truthy (SuggestionRequest.message payload)
      (fun m => NL ++ NL ++ lit "I read your note about " ++ DQUOTE
                ++ firstn 80 m ++ DQUOTE ++ lit "—let's explore it further.")
      [] in
  let message :=
    lit "Hi " ++ intro_name ++ lit "," ++ NL ++ NL
    ++ lit "Thanks for reaching out. I'm thrilled you stopped by my portfolio. "
    ++ lit "Share a bit more about your goals, timeline, and any references you love—"
    ++ lit "I'll propose a clear next step. " ++ body_hint ++ NL ++ NL
    ++ lit "Best," ++ NL ++ lit "Mr. [Full Name]" in
  SuggestionResponse.mk subj message.

(** [POST /contact] *)
Definition submit_contact (msg : Message.t) : M HTTPException Created :=
  fun w =>
    match create_document "message" (OfModel msg) w with
    | (inr doc_id, w') => (inr (mkCreated (lit "ok") doc_id), w')
    | (inl e, w') => (inl (mkHTTPException 500 (str e)), w')
    end.

(** [POST /interactions] *)
Definition record_interaction (payload : InteractionIn.t) : M HTTPException Created :=
  fun w =>
    let data := InteractionIn_model_dump payload in
    let data := <["created_at" := VDatetime (clock w)]> data in
    match create_document "interaction" (OfDict data) w with
    | (inr doc_id, w') => (inr (mkCreated (lit "ok") doc_id), w')
    | (inl e, w') => (inl (mkHTTPException 500 (str e)), w')
    end.

(** [GET /testimonials]: the handler raises nothing, whatever happens
    inside its [try]. *)
Definition get_testimonials : World -> list Testimonial.t * World :=
  fun w =>
    match get_documents "testimonial" w with
    | (inr docs, w') =>
        match clean_all validate_Testimonial docs with
        | inr cleaned =>
            (match cleaned with
             | [] => TESTIMONIALS_IF_EMPTY
             | _ :: _ => cleaned
             end, w')
        | inl _ => (TESTIMONIALS_ON_EXCEPT, w')
        end
    | (inl _, w') => (TESTIMONIALS_ON_EXCEPT, w')
    end.

(** [GET /projects] *)
Definition get_projects : World -> list Project.t * World :=
  fun w =>
    match get_documents "project" w with
    | (inr docs, w') =>
        match clean_all validate_Project docs with
        | inr cleaned =>
            (match cleaned with
             | [] => PROJECTS_IF_EMPTY
             | _ :: _ => cleaned
             end, w')
        | inl _ => (PROJECTS_ON_EXCEPT, w')
        end
    | (inl _, w') => (PROJECTS_ON_EXCEPT, w')
    end.

(** *** The routes: the framework validates the body against the
    handler's parameter type, answers 422 without calling the handler when
    that fails, and otherwise turns the handler's outcome into a response. *)

Definition POST_ai_suggest (raw : dict) (w : World)
  : Response SuggestionResponse.t * World :=
  match validate_SuggestionRequest raw with
  | inl errors => (HTTP422 errors, w)
  | inr payload => (HTTP200 (ai_suggest payload), w)
  end.

Definition POST_contact (raw : dict) (w : World) : Response Created * World :=
  match validate_Message raw with
  | inl errors => (HTTP422 errors, w)
  | inr msg => respond (submit_contact msg w)
  end.

Definition POST_interactions (raw : dict) (w : World) : Response Created * World :=
  match validate_InteractionIn raw with
  | inl errors => (HTTP422 errors, w)
  | inr payload => respond (record_interaction payload w)
  end.

Definition GET_testimonials (w : World) : Response (list Testimonial.t) * World :=
  let (body, w') := get_testimonials w in (HTTP200 body, w').

Definition GET_projects (w : World) : Response (list Project.t) * World :=
  let (body, w') := get_projects w in (HTTP200 body, w').

End Handlers.

(** ** Schema introspection, [GET /schema] *)

Inductive Annotation :=
| TStr
| TEmailStr
| TInt
| TFloat
| TBool
| TDatetime
| TOptional (a : Annotation)
| TList (a : Annotation).

Inductive DefaultValue :=
| DNone
| DBool (b : bool)
| DEmptyList.

(** A field of a model class. [default_value = None] is a field declared with no
    default or with [Field(...)]: a required field. *)
Record FieldInfo := mkField {
  field_name : string;
  annotation : Annotation;
  default_value : option DefaultValue;
  ge : option Z;
  le : option Z;
  description : option string
}.

Definition required_field (n : string) (a : Annotation) : FieldInfo :=
  mkField n a None None None None.

Definition defaulted_field (n : string) (a : Annotation) (d : DefaultValue) : FieldInfo :=
  mkField n a (Some d) None None None.

(** What a name of the [schemas] module is bound to. *)
Inductive Member :=
| PydanticModel (fields : list FieldInfo)
| OtherClass
| NotAClass.

Definition isclass (m : Member) : bool :=
  match m with
  | NotAClass => false
  | _ => true
  end.

Definition issubclass_BaseModel (m : Member) : bool :=
  match m with
  | PydanticModel _ => true
  | _ => false
  end.

Definition model_fields (m : Member) : list FieldInfo :=
  match m with
  | PydanticModel fields => fields
  | _ => []
  end.

Definition User_fields : list FieldInfo := [
  mkField "name" TStr None None None (Some "Full name");
  mkField "email" TEmailStr None None None (Some "Email address");
  mkField "address" (TOptional TStr) (Some DNone) None None (Some "Address");
  mkField "age" (TOptional TInt) (Some DNone) (Some 0%Z) (Some 120%Z) (Some "Age in years");
  mkField "is_active" TBool (Some (DBool true)) None None (Some "Whether user is active")
].

Definition Product_fields : list FieldInfo := [
  mkField "title" TStr None None None (Some "Product title");
  mkField "description" (TOptional TStr) (Some DNone) None None (Some "Product description");
  mkField "price" TFloat None (Some 0%Z) None (Some "Price in dollars");
  mkField "category" TStr None None None (Some "Product category");
  mkField "in_stock" TBool (Some (DBool true)) None None (Some "Whether product is in stock")
].

Definition Message_fields : list FieldInfo := [
  required_field "name" TStr;
  required_field "email" TEmailStr;
  defaulted_field "subject" (TOptional TStr) DNone;
  required_field "body" TStr;
  defaulted_field "created_at" (TOptional TDatetime) DNone
].

Definition Interaction_fields : list FieldInfo := [
  required_field "session_id" TStr;
  required_field "event" TStr;
  defaulted_field "value" (TOptional TStr) DNone;
  defaulted_field "path" (TOptional TStr) DNone;
  defaulted_field "created_at" (TOptional TDatetime) DNone
].

Definition Testimonial_fields : list FieldInfo := [
  required_field "author" TStr;
  defaulted_field "role" (TOptional TStr) DNone;
  required_field "quote" TStr;
  defaulted_field "avatar_url" (TOptional TStr) DNone
].

Definition Project_fields : list FieldInfo := [
  required_field "title" TStr;
  required_field "description" TStr;
  defaulted_field "tags" (TList TStr) DEmptyList;
  defaulted_field "image_url" (TOptional TStr) DNone;
  defaulted_field "demo_url" (TOptional TStr) DNone;
  defaulted_field "source_url" (TOptional TStr) DNone
].

(** [inspect.getmembers(schema_module)]: the names of the module with what
    they are bound to, sorted by name. *)
Definition getmembers_schemas : list (string * Member) := [
  ("BaseModel", PydanticModel []);
  ("EmailStr", OtherClass);
  ("Field", NotAClass);
  ("Interaction", PydanticModel Interaction_fields);
  ("List", NotAClass);
  ("Literal", NotAClass);
  ("Message", PydanticModel Message_fields);
  ("Optional", NotAClass);
  ("Product", PydanticModel Product_fields);
  ("Project", PydanticModel Project_fields);
  ("Testimonial", PydanticModel Testimonial_fields);
  ("User", PydanticModel User_fields);
  ("__builtins__", NotAClass);
  ("__cached__", NotAClass);
  ("__doc__", NotAClass);
  ("__file__", NotAClass);
  ("__loader__", NotAClass);
  ("__name__", NotAClass);
  ("__package__", NotAClass);
  ("__spec__", NotAClass);
  ("datetime", OtherClass)
].

(** The part of [cls.model_json_schema()] the properties below read: the title, the
    properties and the list of required fields, which pydantic fills with
    the fields that have no default, in declaration order. *)
Record JsonSchema := mkJsonSchema {
  title : string;
  properties : list (string * Annotation);
  required : list string
}.

Definition is_required (f : FieldInfo) : bool :=
  match default_value f with
  | None => true
  | Some _ => false
  end.

Definition model_json_schema (name : string) (cls : Member) : JsonSchema :=
  mkJsonSchema name
    (map (fun f => (field_name f, annotation f)) (model_fields cls))
    (map field_name (List.filter is_required (model_fields cls))).

Definition get_schema : gmap string JsonSchema :=
  list_to_map
    (map (fun '(name, cls) => (name, model_json_schema name cls))
       (List.filter (fun '(name, cls) =>
                  isclass cls && issubclass_BaseModel cls
                  && negb (String.eqb name "BaseModel"))
          getmembers_schemas)).

(** ** Diagnostics, [GET /test] *)

(** Reading an attribute of an object: its value, no such attribute
    ([AttributeError], which [hasattr] turns into [False]), or another
    exception, which [hasattr] lets through. *)
Inductive Attribute :=
| HasValue (v : pystr)
| NoAttribute
| AccessRaises (e : Exception).

(** What [test_database] uses of the handle [db] of [database]: its
    attribute [name] and the outcome of [db.list_collection_names()]. *)
Record Database := mkDatabase {
  name_attribute : Attribute;
  list_collection_names : Exception + list pystr
}.

(** ["✅ Set" if os.getenv(k) else "❌ Not Set"] *)
Definition set_or_not (env : gmap string pystr) (k : string) : pystr :=
  if_truthy (env !! k) (fun _ => lit "✅ Set") (lit "❌ Not Set").

(** [GET /test]. The [response] dict is updated in place, so what was
    assigned before an exception stays assigned. *)
Definition test_database (db : option Database) (env : gmap string pystr) : dict :=
  let response : dict :=
    <["backend" := VStr (lit "✅ Running")]>
    (<["database" := VStr (lit "❌ Not Available")]>
    (<["database_url" := VNone]>
    (<["database_name" := VNone]>
    (<["connection_status" := VStr (lit "Not Connected")]>
    (<["collections" := VList []]> ∅))))) in
  let response :=
    match db with
    | Some handle =>
        let response := <["database" := VStr (lit "✅ Available")]> response in
        let response :=
          <["database_url" := VStr (set_or_not env "DATABASE_URL")]> response in
        match name_attribute handle with
        | AccessRaises e =>
            <["database" := VStr (lit "❌ Error: " ++ firstn 50 (str e))]> response
        | attribute =>
            let response :=
              <["database_name" :=
                  VStr (match attribute with
                        | HasValue v => v
                        | _ => lit "✅ Connected"
                        end)]> response in
            let response :=
              <["connection_status" := VStr (lit "Connected")]> response in
            match list_collection_names handle with
            | inr collections =>
                let response :=
                  <["collections" := VList (map VStr (firstn 10 collections))]>
                    response in
                <["database" := VStr (lit "✅ Connected & Working")]> response
            | inl e =>
                <["database" :=
                    VStr (lit "⚠️  Connected but Error: " ++ firstn 50 (str e))]>
                  response
            end
        end
    | None =>
        <["database" := VStr (lit "⚠️  Available but not initialized")]> response
    end in
  let response :=
    <["database_url" := VStr (set_or_not env "DATABASE_URL")]> response in
  let response :=
    <["database_name" := VStr (set_or_not env "DATABASE_NAME")]> response in
  response.

(** ** The claims in the words of the specification *)

Definition DETAILED_SUBJECT : pystr := lit "Re: Your detailed message—thank you!".
Definition COLLABORATE_SUBJECT : pystr := lit "Excited to collaborate—here's a quick note".
Definition DEFAULT_SUBJECT : pystr := lit "Let's connect".

(** "a message is supplied and its length exceeds 120 characters" *)
Definition message_is_long (p : SuggestionRequest.t) : bool :=
  match SuggestionRequest.message p with
  | Some m => (120 <? length m)%nat
  | None => false
  end.

(** "a subject is supplied and contains any of hire, project, collab
    case-insensitively" *)
Definition subject_has_keyword (ul : pystr -> pystr) (p : SuggestionRequest.t) : bool :=
  match SuggestionRequest.subject p with
  | Some s => existsb (fun k => contains k (lower ul s)) KEYWORDS
  | None => false
  end.

(** The subject precedence read with "supplied" as "not [None]". *)
Definition subject_when_supplied (ul : pystr -> pystr) (p : SuggestionRequest.t) : pystr :=
  if message_is_long p then DETAILED_SUBJECT
  else if subject_has_keyword ul p then COLLABORATE_SUBJECT
  else match SuggestionRequest.subject p with
       | Some s => s
       | None => DEFAULT_SUBJECT
       end.

(** The subject precedence with "supplied" as "a non-empty string". *)
Definition subject_when_nonempty (ul : pystr -> pystr) (p : SuggestionRequest.t) : pystr :=
  if message_is_long p then DETAILED_SUBJECT
  else if subject_has_keyword ul p then COLLABORATE_SUBJECT
  else match SuggestionRequest.subject p with
       | Some (c :: s) => c :: s
       | _ => DEFAULT_SUBJECT
       end.

(** The fixed template of the message body, with its two holes. *)
Definition body_template (greeting_name hint : pystr) : pystr :=
  lit "Hi " ++ greeting_name ++ lit "," ++ NL ++ NL
  ++ lit "Thanks for reaching out. I'm thrilled you stopped by my portfolio. Share a bit more about your goals, timeline, and any references you love—I'll propose a clear next step. "
  ++ hint ++ NL ++ NL ++ lit "Best," ++ NL ++ lit "Mr. [Full Name]".

(** The sentence quoting an excerpt of the caller's message. *)
Definition excerpt_sentence (excerpt : pystr) : pystr :=
  NL ++ NL ++ lit "I read your note about " ++ DQUOTE ++ excerpt ++ DQUOTE
  ++ lit "—let's explore it further.".

(** The body read with "supplied" as "not [None]". *)
Definition body_when_supplied (p : SuggestionRequest.t) : pystr :=
  body_template
    (match SuggestionRequest.name p with
     | Some n => n
     | None => lit "there"
     end)
    (match SuggestionRequest.message p with
     | Some m => excerpt_sentence (firstn 80 m)
     | None => []
     end).

(** The body with "supplied" as "a non-empty string". *)
Definition body_when_nonempty (p : SuggestionRequest.t) : pystr :=
  body_template
    (match SuggestionRequest.name p with
     | Some (c :: n) => c :: n
     | _ => lit "there"
     end)
    (match SuggestionRequest.message p with
     | Some (c :: m) => excerpt_sentence (firstn 80 (c :: m))
     | _ => []
     end).

(** An empty string replaced by an absent value. *)
Definition absent_if_empty (o : option pystr) : option pystr :=
  match o with
  | Some [] => None
  | _ => o
  end.

(** The listing read failed, or returned no document. *)
Definition fetch_fails_or_empty (r : (Exception + list dict) * World) : Prop :=
  match fst r with
  | inl _ => True
  | inr docs => docs = []
  end.

(** The [try]/[except] shared by the two write handlers: the gateway's
    identifier becomes the reply, its exception a 500 with [str(e)]. *)
Definition created_or_500 (r : (Exception + N) * World)
  : (HTTPException + Created) * World :=
  match r with
  | (inr doc_id, w) => (inr (mkCreated (lit "ok") doc_id), w)
  | (inl e, w) => (inl (mkHTTPException 500 (str e)), w)
  end.

(** "a server error carrying a truncated description": some bound [n]
    such that the detail of every 500 of [POST /contact] is the first [n]
    characters of the failure's description. *)
Definition contact_detail_truncated_to (n : nat) : Prop :=
  forall (create_document : string -> Data -> M Exception N)
         (msg : Message.t) (w : World) (e : Exception) (w' : World),
    create_document "message" (OfModel msg) w = (inl e, w') ->
    exists r, fst (submit_contact create_document msg w) = inl r
              /\ status_code r = 500%Z /\ detail r = firstn n (str e).

(** ** Sample inputs *)

Definition identity_lower : pystr -> pystr := fun s => s.

Definition sample_validate_email (s : pystr) : option pystr :=
  if contains (lit "@") s then Some s else None.

Definition sample_validate_datetime (v : value) : option Z :=
  match v with
  | VDatetime t => Some t
  | VInt n => Some n
  | _ => None
  end.

Definition empty_store : Store := mkStore ∅ None 0.
Definition faulty_store (description : pystr) : Store := mkStore ∅ (Some description) 0.
Definition connected_world : World := mkWorld 1700000000 (Some empty_store) [].
Definition disconnected_world : World := mkWorld 1700000000 None [].
Definition faulty_world (description : pystr) : World :=
  mkWorld 1700000000 (Some (faulty_store description)) [].

Definition contact_body : dict :=
  <["name" := VStr (lit "Ada")]>
  (<["email" := VStr (lit "ada@example.org")]>
  (<["body" := VStr (lit "Hello")]> ∅)).

(** A failure description of 60 characters. *)
Definition long_description : pystr :=
  lit "ServerSelectionTimeoutError: localhost:27017: [refused] (61)".

Definition contact_message : Message.t :=
  Message.mk (lit "Ada") (lit "ada@example.org") None (lit "Hello") None.

Definition bad_email_body : dict :=
  <["email" := VStr (lit "not-an-address")]> contact_body.

Definition click_body : dict :=
  <["session_id" := VStr (lit "s1")]> (<["event" := VStr (lit "click")]> ∅).

Definition click_payload : InteractionIn.t :=
  InteractionIn.mk (lit "s1") (lit "click") None None.

Definition empty_request : SuggestionRequest.t :=
  SuggestionRequest.mk None None None None.

(** A store that holds one testimonial and one project, and one whose
    second testimonial lacks its quote. *)
Definition grace_document : dict :=
  <["_id" := VObjectId 7]>
  (<["author" := VStr (lit "Grace")]>
  (<["quote" := VStr (lit "Shipped on time.")]> ∅)).

Definition grace : Testimonial.t :=
  Testimonial.mk (lit "Grace") None (lit "Shipped on time.") None.

Definition quoteless_document : dict :=
  <["_id" := VObjectId 8]> (<["author" := VStr (lit "Linus")]> ∅).

Definition atlas_document : dict :=
  <["_id" := VObjectId 9]>
  (<["title" := VStr (lit "Atlas")]>
  (<["description" := VStr (lit "A map renderer.")]>
  (<["tags" := VList [VStr (lit "maps")]]> ∅))).

Definition atlas : Project.t :=
  Project.mk (lit "Atlas") (lit "A map renderer.") [lit "maps"] None None None.

Definition stocked_world : World :=
  mkWorld 1700000000
    (Some (mkStore
             (<["testimonial" := [grace_document]]>
              (<["project" := [atlas_document]]> ∅)) None 10))
    [].

Definition spoiled_world : World :=
  mkWorld 1700000000
    (Some (mkStore
             (<["testimonial" := [grace_document; quoteless_document]]>
              (<["project" := [atlas_document; quoteless_document]]> ∅)) None 10))
    [].

Definition backdated_body : dict := <["created_at" := VInt 0]> contact_body.

Definition backdated_message : Message.t :=
  Message.mk (lit "Ada") (lit "ada@example.org") None (lit "Hello") (Some 0%Z).

(** * Properties *)

(** ** Strings *)

Lemma startswith_app (k rest : pystr) : startswith k (k ++ rest) = true.
Proof.
  induction k as [|c k IH]; simpl.
  - reflexivity.
  - rewrite N.eqb_refl. exact IH.
Qed.

Lemma contains_app (k before rest : pystr) :
  contains k (before ++ k ++ rest) = true.
Proof.
  induction before as [|c before IH].
  - pose proof (startswith_app k rest) as H. simpl.
    destruct (k ++ rest); simpl; rewrite H; reflexivity.
  - simpl. rewrite IH. apply orb_true_r.
Qed.

Lemma startswith_spec (k s : pystr) :
  startswith k s = true <-> exists rest, s = k ++ rest.
Proof.
  revert s. induction k as [|c k IH]; intros s; simpl.
  - split; [intros _; exists s; reflexivity | reflexivity].
  - destruct s as [|d s].
    + split; [discriminate | intros [rest H]; discriminate H].
    + rewrite andb_true_iff, N.eqb_eq, IH. split.
      * intros [-> [rest ->]]. exists rest. reflexivity.
      * intros [rest H]. injection H as -> ->. split; [reflexivity | eauto].
Qed.

Lemma contains_spec (k s : pystr) :
  contains k s = true <-> exists before rest, s = before ++ k ++ rest.
Proof.
  split.
  - induction s as [|c s IH].
    + simpl. rewrite orb_false_r. intros H.
      apply startswith_spec in H as [rest H]. exists [], rest. exact H.
    + simpl. rewrite orb_true_iff. intros [H | H].
      * apply startswith_spec in H as [rest H]. exists [], rest. exact H.
      * destruct (IH H) as (before & rest & ->).
        exists (c :: before), rest. reflexivity.
  - intros (before & rest & ->). apply contains_app.
Qed.

(** On an ASCII string [lower] is the letter-wise ASCII lowering, whatever
    the Unicode tables say. *)
Lemma lower_ascii (ul : pystr -> pystr) (s : pystr) :
  forallb is_ascii s = true -> lower ul s = map ascii_lower s.
Proof. intros H. unfold lower. rewrite H. reflexivity. Qed.

(** ** The suggestion generator *)

(** The literals stay folded while the handlers are unfolded. *)
Local Opaque lit.

Section SuggestionProperties.

Variable unicode_lower : pystr -> pystr.

Lemma ai_suggest_subject (p : SuggestionRequest.t) :
  SuggestionResponse.subject (ai_suggest unicode_lower p)
  = subject_when_nonempty unicode_lower p.
Proof.
  destruct p as [n e s m].
  unfold ai_suggest, subject_when_nonempty, message_is_long, subject_has_keyword,
    py_and, py_or, if_truthy; cbn [SuggestionRequest.subject SuggestionRequest.message
    SuggestionRequest.name SuggestionResponse.subject].
  destruct m as [[|c m]|], s as [[|c' s]|]; reflexivity.
Qed.

End SuggestionProperties.

Lemma contains_map_inv (f : N -> N) (k s : pystr) :
  contains k (map f s) = true <->
  exists before t rest, s = before ++ t ++ rest /\ map f t = k.
Proof.
  rewrite contains_spec. split.
  - intros (b & r & H).
    apply map_eq_app in H as (before & tl & -> & <- & H).
    apply map_eq_app in H as (t & rest & -> & <- & <-).
    exists before, t, rest. split; reflexivity.
  - intros (before & t & rest & -> & <-).
    exists (map f before), (map f rest). rewrite !map_app. reflexivity.
Qed.

(** "case-insensitively": on an ASCII subject a keyword is found exactly
    when some stretch of the subject spells it up to the case of its
    letters. *)
Lemma subject_keyword_ascii (ul : pystr -> pystr) (s : pystr) :
  forallb is_ascii s = true ->
  (existsb (fun k => contains k (lower ul s)) KEYWORDS = true <->
   exists k before t rest,
     In k KEYWORDS /\ s = before ++ t ++ rest /\ map ascii_lower t = k).
Proof.
  intros Hs. rewrite (lower_ascii ul s Hs), existsb_exists. split.
  - intros (k & Hk & H). apply contains_map_inv in H as (b & t & r & H1 & H2).
    exists k, b, t, r. auto.
  - intros (k & b & t & r & Hk & H1 & H2). exists k. split; [exact Hk |].
    apply contains_map_inv. exists b, t, r. auto.
Qed.

(** C1 (as amended). The subject of every suggestion follows the
    precedence: a message longer than 120 characters gives the "detailed
    message" subject; otherwise a subject in which a keyword occurs after
    lowercasing gives the "collaborate" subject; otherwise the caller's
    subject is returned verbatim when it is a non-empty string, and
    "Let's connect" when the subject is absent or empty. *)
Theorem C1_subject_precedence :
  forall (unicode_lower : pystr -> pystr) (p : SuggestionRequest.t),
    SuggestionResponse.subject (ai_suggest unicode_lower p)
    = subject_when_nonempty unicode_lower p.
Proof. intros ul p. apply ai_suggest_subject. Qed.

(** C1 as stated fails: for [{"subject": ""}] a subject was supplied and
    holds no keyword, so the claim promises the caller's subject, the
    empty string, verbatim; the handler answers "Let's connect". *)
Lemma C1_empty_subject_not_verbatim :
  ~ (forall (unicode_lower : pystr -> pystr) (p : SuggestionRequest.t),
       SuggestionResponse.subject (ai_suggest unicode_lower p)
       = subject_when_supplied unicode_lower p).
Proof.
  intros H.
  specialize (H identity_lower (SuggestionRequest.mk None None (Some []) None)).
  vm_compute in H. discriminate H.
Qed.

(** The spec's examples for the subject. *)
Lemma long_message_subject (ul : pystr -> pystr) (n e s : option pystr) (m : pystr) :
  (120 < length m)%nat ->
  SuggestionResponse.subject (ai_suggest ul (SuggestionRequest.mk n e s (Some m)))
  = DETAILED_SUBJECT.
Proof.
  intros H. rewrite ai_suggest_subject.
  unfold subject_when_nonempty, message_is_long; cbn [SuggestionRequest.message].
  apply Nat.ltb_lt in H. rewrite H. reflexivity.
Qed.

Lemma discuss_a_hire_subject (ul : pystr -> pystr) :
  SuggestionResponse.subject
    (ai_suggest ul (SuggestionRequest.mk None None (Some (lit "Let's discuss a hire")) None))
  = COLLABORATE_SUBJECT.
Proof. vm_compute. reflexivity. Qed.

Lemma template_text_closed :
  lit "Thanks for reaching out. I'm thrilled you stopped by my portfolio. "
  ++ lit "Share a bit more about your goals, timeline, and any references you love—"
  ++ lit "I'll propose a clear next step. "
  = lit "Thanks for reaching out. I'm thrilled you stopped by my portfolio. Share a bit more about your goals, timeline, and any references you love—I'll propose a clear next step. ".
Proof. vm_compute. reflexivity. Qed.

Lemma template_text (rest : pystr) :
  lit "Thanks for reaching out. I'm thrilled you stopped by my portfolio. "
  ++ lit "Share a bit more about your goals, timeline, and any references you love—"
  ++ lit "I'll propose a clear next step. " ++ rest
  = lit "Thanks for reaching out. I'm thrilled you stopped by my portfolio. Share a bit more about your goals, timeline, and any references you love—I'll propose a clear next step. "
    ++ rest.
Proof. rewrite <- template_text_closed, <- !app_assoc. reflexivity. Qed.

Lemma ai_suggest_message (ul : pystr -> pystr) (p : SuggestionRequest.t) :
  SuggestionResponse.message (ai_suggest ul p) = body_when_nonempty p.
Proof.
  destruct p as [n e s m].
  unfold ai_suggest, body_when_nonempty, body_template, excerpt_sentence,
    py_or, if_truthy; cbn [SuggestionRequest.subject SuggestionRequest.message
    SuggestionRequest.name SuggestionResponse.message].
  rewrite template_text.
  destruct n as [[|c n]|], m as [[|c' m]|]; reflexivity.
Qed.

Lemma body_starts_with_greeting (g hint : pystr) :
  startswith (lit "Hi " ++ g ++ lit ",") (body_template g hint) = true.
Proof.
  unfold body_template.
  replace (lit "Hi " ++ g ++ lit "," ++ NL ++ NL ++ _)
    with ((lit "Hi " ++ g ++ lit ",") ++ NL ++ NL
          ++ lit "Thanks for reaching out. I'm thrilled you stopped by my portfolio. Share a bit more about your goals, timeline, and any references you love—I'll propose a clear next step. "
          ++ hint ++ NL ++ NL ++ lit "Best," ++ NL ++ lit "Mr. [Full Name]")
    by (rewrite <- !app_assoc; reflexivity).
  apply startswith_app.
Qed.

Lemma body_contains_hint (g hint : pystr) :
  contains hint (body_template g hint) = true.
Proof.
  unfold body_template.
  replace (lit "Hi " ++ g ++ lit "," ++ NL ++ NL ++ _)
    with ((lit "Hi " ++ g ++ lit "," ++ NL ++ NL
           ++ lit "Thanks for reaching out. I'm thrilled you stopped by my portfolio. Share a bit more about your goals, timeline, and any references you love—I'll propose a clear next step. ")
          ++ hint ++ NL ++ NL ++ lit "Best," ++ NL ++ lit "Mr. [Full Name]")
    by (rewrite <- !app_assoc; reflexivity).
  apply contains_app.
Qed.

(** C2 (as amended). The body of every suggestion is the fixed template
    with the greeting name substituted (the caller's name when it is a
    non-empty string, "there" otherwise) and with the sentence quoting the
    first 80 characters of the caller's message exactly when the message is
    a non-empty string; the body opens with "Hi <name>,", and for the empty
    input it contains "Hi there,". *)
Theorem C2_message_body :
  forall (unicode_lower : pystr -> pystr) (p : SuggestionRequest.t),
    SuggestionResponse.message (ai_suggest unicode_lower p) = body_when_nonempty p
    /\ startswith
         (lit "Hi " ++ py_or (SuggestionRequest.name p) (lit "there") ++ lit ",")
         (SuggestionResponse.message (ai_suggest unicode_lower p)) = true
    /\ contains
         (if_truthy (SuggestionRequest.message p)
            (fun m => excerpt_sentence (firstn 80 m)) [])
         (SuggestionResponse.message (ai_suggest unicode_lower p)) = true
    /\ contains (lit "Hi there,")
         (SuggestionResponse.message (ai_suggest unicode_lower empty_request)) = true.
Proof.
  intros ul p. rewrite !ai_suggest_message. split; [reflexivity |].
  destruct p as [n e s m]. unfold body_when_nonempty, py_or, if_truthy;
    cbn [SuggestionRequest.name SuggestionRequest.message].
  split; [| split].
  - destruct n as [[|c n]|]; apply body_starts_with_greeting.
  - destruct m as [[|c m]|]; apply body_contains_hint.
  - vm_compute. reflexivity.
Qed.

(** C2 as stated fails: for [{"message": ""}] a message was supplied, so
    the claim promises the sentence quoting its first 80 characters; the
    handler's body has no such sentence. *)
Lemma C2_empty_message_not_quoted :
  ~ (forall (unicode_lower : pystr -> pystr) (p : SuggestionRequest.t),
       SuggestionResponse.message (ai_suggest unicode_lower p)
       = body_when_supplied p).
Proof.
  intros H.
  specialize (H identity_lower (SuggestionRequest.mk None None None (Some []))).
  vm_compute in H. discriminate H.
Qed.

(** The same at the greeting: for [{"name": ""}] the body greets "there". *)
Lemma empty_name_not_verbatim :
  SuggestionResponse.message
    (ai_suggest identity_lower (SuggestionRequest.mk (Some []) None None None))
  <> body_when_supplied (SuggestionRequest.mk (Some []) None None None).
Proof. vm_compute. discriminate. Qed.

Lemma ai_suggest_eta (ul : pystr -> pystr) (p : SuggestionRequest.t) :
  ai_suggest ul p
  = SuggestionResponse.mk (subject_when_nonempty ul p) (body_when_nonempty p).
Proof.
  rewrite <- (ai_suggest_subject ul p), <- (ai_suggest_message ul p).
  destruct (ai_suggest ul p). reflexivity.
Qed.

Lemma no_keyword_in_empty (ul : pystr -> pystr) :
  existsb (fun k => contains k (lower ul [])) KEYWORDS = false.
Proof. vm_compute. reflexivity. Qed.

Lemma subject_absent_if_empty (ul : pystr -> pystr) (n e s m : option pystr) :
  subject_when_nonempty ul (SuggestionRequest.mk n e s m)
  = subject_when_nonempty ul
      (SuggestionRequest.mk (absent_if_empty n) e (absent_if_empty s)
         (absent_if_empty m)).
Proof.
  unfold subject_when_nonempty, message_is_long, subject_has_keyword;
    cbn [SuggestionRequest.subject SuggestionRequest.message].
  destruct m as [[|c m]|]; destruct s as [[|c' s]|];
    cbn [absent_if_empty]; rewrite ?no_keyword_in_empty; reflexivity.
Qed.

Lemma body_absent_if_empty (n e s m : option pystr) :
  body_when_nonempty (SuggestionRequest.mk n e s m)
  = body_when_nonempty
      (SuggestionRequest.mk (absent_if_empty n) e (absent_if_empty s)
         (absent_if_empty m)).
Proof.
  unfold body_when_nonempty; cbn [SuggestionRequest.name SuggestionRequest.message].
  destruct n as [[|c n]|]; destruct m as [[|c' m]|]; reflexivity.
Qed.

(** C10. An empty-string message, subject or name is treated exactly like
    an absent one: the response is the one for the request with the empty
    strings dropped; with an empty message the body carries no excerpt
    sentence and the subject is the one computed without a message; an
    empty subject gives "Let's connect" and an empty name the greeting
    "there". *)
Theorem C10_empty_strings_as_absent :
  forall (unicode_lower : pystr -> pystr) (n e s m : option pystr),
    ai_suggest unicode_lower (SuggestionRequest.mk n e s m)
    = ai_suggest unicode_lower
        (SuggestionRequest.mk (absent_if_empty n) e (absent_if_empty s)
           (absent_if_empty m))
    /\ SuggestionResponse.message
         (ai_suggest unicode_lower (SuggestionRequest.mk n e s (Some [])))
       = body_template (py_or n (lit "there")) []
    /\ SuggestionResponse.subject
         (ai_suggest unicode_lower (SuggestionRequest.mk n e s (Some [])))
       = SuggestionResponse.subject
           (ai_suggest unicode_lower (SuggestionRequest.mk n e s None))
    /\ SuggestionResponse.subject
         (ai_suggest unicode_lower (SuggestionRequest.mk n e (Some []) (Some [])))
       = DEFAULT_SUBJECT
    /\ SuggestionResponse.message
         (ai_suggest unicode_lower (SuggestionRequest.mk (Some []) e s None))
       = body_template (lit "there") [].
Proof.
  intros ul n e s m. split; [| split; [| split; [| split]]].
  - rewrite !ai_suggest_eta. f_equal.
    + apply subject_absent_if_empty.
    + apply body_absent_if_empty.
  - rewrite ai_suggest_message. unfold body_when_nonempty, py_or, if_truthy;
      cbn [SuggestionRequest.name SuggestionRequest.message].
    destruct n as [[|c n]|]; reflexivity.
  - rewrite !ai_suggest_subject.
    rewrite (subject_absent_if_empty ul n e s (Some [])),
      (subject_absent_if_empty ul n e s None). reflexivity.
  - rewrite ai_suggest_subject.
    unfold subject_when_nonempty, message_is_long, subject_has_keyword;
      cbn [SuggestionRequest.subject SuggestionRequest.message].
    rewrite no_keyword_in_empty. reflexivity.
  - rewrite ai_suggest_message. reflexivity.
Qed.

(** C5. [POST /ai/suggest] is deterministic and reads no external state:
    the response is the same in any two worlds, and the world (clock,
    store handle, gateway log) is left as it was; the route takes neither
    of the gateway's operations. *)
Theorem C5_suggest_deterministic :
  forall (unicode_lower : pystr -> pystr) (validate_email : pystr -> option pystr)
         (raw : dict) (w1 w2 : World),
    fst (POST_ai_suggest unicode_lower validate_email raw w1)
    = fst (POST_ai_suggest unicode_lower validate_email raw w2)
    /\ snd (POST_ai_suggest unicode_lower validate_email raw w1) = w1.
Proof.
  intros ul ve raw w1 w2. unfold POST_ai_suggest.
  destruct (validate_SuggestionRequest ve raw) as [errors | payload];
    split; reflexivity.
Qed.

(** ** The listing handlers *)

Lemma testimonials_fallback_same : TESTIMONIALS_IF_EMPTY = TESTIMONIALS_ON_EXCEPT.
Proof. reflexivity. Qed.

Lemma projects_fallback_same : PROJECTS_IF_EMPTY = PROJECTS_ON_EXCEPT.
Proof. reflexivity. Qed.

Section ListingProperties.

Variable get_documents : string -> M Exception (list dict).

Lemma get_testimonials_fetch_raises (w w' : World) (e : Exception) :
  get_documents "testimonial" w = (inl e, w') ->
  get_testimonials get_documents w = (TESTIMONIALS_ON_EXCEPT, w').
Proof. intros H. unfold get_testimonials. rewrite H. reflexivity. Qed.

Lemma get_testimonials_fetch_empty (w w' : World) :
  get_documents "testimonial" w = (inr [], w') ->
  get_testimonials get_documents w = (TESTIMONIALS_IF_EMPTY, w').
Proof. intros H. unfold get_testimonials. rewrite H. reflexivity. Qed.

Lemma get_testimonials_validation_raises (w w' : World) docs errors :
  get_documents "testimonial" w = (inr docs, w') ->
  clean_all validate_Testimonial docs = inl errors ->
  get_testimonials get_documents w = (TESTIMONIALS_ON_EXCEPT, w').
Proof. intros H1 H2. unfold get_testimonials. rewrite H1, H2. reflexivity. Qed.

Lemma get_projects_fetch_raises (w w' : World) (e : Exception) :
  get_documents "project" w = (inl e, w') ->
  get_projects get_documents w = (PROJECTS_ON_EXCEPT, w').
Proof. intros H. unfold get_projects. rewrite H. reflexivity. Qed.

Lemma get_projects_fetch_empty (w w' : World) :
  get_documents "project" w = (inr [], w') ->
  get_projects get_documents w = (PROJECTS_IF_EMPTY, w').
Proof. intros H. unfold get_projects. rewrite H. reflexivity. Qed.

Lemma get_projects_validation_raises (w w' : World) docs errors :
  get_documents "project" w = (inr docs, w') ->
  clean_all validate_Project docs = inl errors ->
  get_projects get_documents w = (PROJECTS_ON_EXCEPT, w').
Proof. intros H1 H2. unfold get_projects. rewrite H1, H2. reflexivity. Qed.

Lemma GET_testimonials_fallback (w : World) :
  fetch_fails_or_empty (get_documents "testimonial" w) ->
  fst (GET_testimonials get_documents w) = HTTP200 TESTIMONIALS_ON_EXCEPT.
Proof.
  unfold fetch_fails_or_empty, GET_testimonials.
  destruct (get_documents "testimonial" w) as [[e | docs] w'] eqn:E; simpl; intros H.
  - rewrite (get_testimonials_fetch_raises w w' e E). reflexivity.
  - subst docs. rewrite (get_testimonials_fetch_empty w w' E).
    rewrite testimonials_fallback_same. reflexivity.
Qed.

Lemma GET_projects_fallback (w : World) :
  fetch_fails_or_empty (get_documents "project" w) ->
  fst (GET_projects get_documents w) = HTTP200 PROJECTS_ON_EXCEPT.
Proof.
  unfold fetch_fails_or_empty, GET_projects.
  destruct (get_documents "project" w) as [[e | docs] w'] eqn:E; simpl; intros H.
  - rewrite (get_projects_fetch_raises w w' e E). reflexivity.
  - subst docs. rewrite (get_projects_fetch_empty w w' E).
    rewrite projects_fallback_same. reflexivity.
Qed.

Lemma GET_testimonials_succeeds (w : World) :
  exists body, fst (GET_testimonials get_documents w) = HTTP200 body.
Proof.
  unfold GET_testimonials.
  destruct (get_testimonials get_documents w) as [body w']. exists body. reflexivity.
Qed.

Lemma GET_projects_succeeds (w : World) :
  exists body, fst (GET_projects get_documents w) = HTTP200 body.
Proof.
  unfold GET_projects.
  destruct (get_projects get_documents w) as [body w']. exists body. reflexivity.
Qed.

End ListingProperties.

(** C3. When the read of the store fails (disconnected, or the operation
    raises) or returns no document, [GET /testimonials] and [GET /projects]
    each answer 200 with their fixed three-item fallback list; and whatever
    the store does, both answer 200: a store failure never becomes an HTTP
    failure. *)
Theorem C3_listing_fallback :
  forall (get_documents : string -> M Exception (list dict)) (w : World),
    (fetch_fails_or_empty (get_documents "testimonial" w) ->
     fst (GET_testimonials get_documents w) = HTTP200 TESTIMONIALS_ON_EXCEPT)
    /\ (fetch_fails_or_empty (get_documents "project" w) ->
        fst (GET_projects get_documents w) = HTTP200 PROJECTS_ON_EXCEPT)
    /\ (exists body, fst (GET_testimonials get_documents w) = HTTP200 body)
    /\ (exists body, fst (GET_projects get_documents w) = HTTP200 body)
    /\ length TESTIMONIALS_ON_EXCEPT = 3%nat
    /\ length PROJECTS_ON_EXCEPT = 3%nat.
Proof.
  intros gd w. split; [| split; [| split; [| split; [| split]]]].
  - apply GET_testimonials_fallback.
  - apply GET_projects_fallback.
  - apply GET_testimonials_succeeds.
  - apply GET_projects_succeeds.
  - reflexivity.
  - reflexivity.
Qed.

(** A disconnected store for the testimonials, a connected and empty one
    for the projects. *)
Lemma C3_listing_fallback_witness :
  fst (GET_testimonials gateway_get_documents disconnected_world)
  = HTTP200 TESTIMONIALS_ON_EXCEPT
  /\ fst (GET_projects gateway_get_documents connected_world)
     = HTTP200 PROJECTS_ON_EXCEPT.
Proof.
  split.
  - apply (proj1 (C3_listing_fallback gateway_get_documents disconnected_world)).
    vm_compute. exact I.
  - apply (proj1 (proj2 (C3_listing_fallback gateway_get_documents connected_world))).
    vm_compute. reflexivity.
Defined.

(** C4. In [GET /testimonials], and likewise in [GET /projects], the value
    returned when the store holds no document is the fixed three-item list
    written in the [if not cleaned] branch, the value returned when the
    read raises is the fixed three-item list written in the [except]
    branch, and the two are equal: both paths produce the identical fixed
    three-item fallback list. *)
Theorem C4_empty_and_error_paths_agree :
  forall (fetch1 fetch2 : string -> M Exception (list dict)) (w1 w2 : World)
         (e : Exception),
    (fst (fetch1 "testimonial" w1) = inr [] ->
     fst (fetch2 "testimonial" w2) = inl e ->
     fst (get_testimonials fetch1 w1) = TESTIMONIALS_IF_EMPTY
     /\ fst (get_testimonials fetch2 w2) = TESTIMONIALS_ON_EXCEPT
     /\ fst (get_testimonials fetch1 w1) = fst (get_testimonials fetch2 w2))
    /\ (fst (fetch1 "project" w1) = inr [] ->
        fst (fetch2 "project" w2) = inl e ->
        fst (get_projects fetch1 w1) = PROJECTS_IF_EMPTY
        /\ fst (get_projects fetch2 w2) = PROJECTS_ON_EXCEPT
        /\ fst (get_projects fetch1 w1) = fst (get_projects fetch2 w2))
    /\ TESTIMONIALS_IF_EMPTY = TESTIMONIALS_ON_EXCEPT
    /\ PROJECTS_IF_EMPTY = PROJECTS_ON_EXCEPT
    /\ map Testimonial.author TESTIMONIALS_ON_EXCEPT
       = [lit "Ava Chen"; lit "Liam Patel"; lit "Maya Rodríguez"]
    /\ map Project.title PROJECTS_ON_EXCEPT
       = [lit "Nebula UI System"; lit "Aurora Graph"; lit "Echo Spaces"].
Proof.
  intros f1 f2 w1 w2 e. split; [| split; [| split; [| split; [| split]]]].
  - intros H1 H2.
    destruct (f1 "testimonial" w1) as [r1 w1'] eqn:E1.
    destruct (f2 "testimonial" w2) as [r2 w2'] eqn:E2.
    simpl in H1, H2. subst r1 r2.
    rewrite (get_testimonials_fetch_empty f1 w1 w1' E1).
    rewrite (get_testimonials_fetch_raises f2 w2 w2' e E2).
    split; [reflexivity | split; [reflexivity |]].
    apply testimonials_fallback_same.
  - intros H1 H2.
    destruct (f1 "project" w1) as [r1 w1'] eqn:E1.
    destruct (f2 "project" w2) as [r2 w2'] eqn:E2.
    simpl in H1, H2. subst r1 r2.
    rewrite (get_projects_fetch_empty f1 w1 w1' E1).
    rewrite (get_projects_fetch_raises f2 w2 w2' e E2).
    split; [reflexivity | split; [reflexivity |]].
    apply projects_fallback_same.
  - apply testimonials_fallback_same.
  - apply projects_fallback_same.
  - reflexivity.
  - reflexivity.
Qed.

(** The empty store against the disconnected one. *)
Lemma C4_empty_and_error_paths_agree_witness :
  (fst (get_testimonials gateway_get_documents connected_world)
   = TESTIMONIALS_IF_EMPTY
   /\ fst (get_testimonials gateway_get_documents disconnected_world)
      = TESTIMONIALS_ON_EXCEPT
   /\ fst (get_testimonials gateway_get_documents connected_world)
      = fst (get_testimonials gateway_get_documents disconnected_world))
  /\ (fst (get_projects gateway_get_documents connected_world)
      = PROJECTS_IF_EMPTY
      /\ fst (get_projects gateway_get_documents disconnected_world)
         = PROJECTS_ON_EXCEPT
      /\ fst (get_projects gateway_get_documents connected_world)
         = fst (get_projects gateway_get_documents disconnected_world)).
Proof.
  split.
  - apply (proj1 (C4_empty_and_error_paths_agree gateway_get_documents
                    gateway_get_documents connected_world disconnected_world
                    StoreUnavailable)); vm_compute; reflexivity.
  - apply (proj1 (proj2 (C4_empty_and_error_paths_agree gateway_get_documents
                           gateway_get_documents connected_world disconnected_world
                           StoreUnavailable))); vm_compute; reflexivity.
Defined.

(** ** The write handlers *)

Section WriteProperties.

Variable validate_email : pystr -> option pystr.
Variable validate_datetime : value -> option Z.
Variable create_document : string -> Data -> M Exception N.

Lemma POST_contact_rejects (raw : dict) (w : World) (errors : list string) :
  validate_Message validate_email validate_datetime raw = inl errors ->
  POST_contact validate_email validate_datetime create_document raw w
  = (HTTP422 errors, w).
Proof. intros H. unfold POST_contact. rewrite H. reflexivity. Qed.

Lemma POST_interactions_rejects (raw : dict) (w : World) (errors : list string) :
  validate_InteractionIn raw = inl errors ->
  POST_interactions create_document raw w = (HTTP422 errors, w).
Proof. intros H. unfold POST_interactions. rewrite H. reflexivity. Qed.

Lemma invalid_email_fails_validation (raw : dict) (s : pystr) :
  raw !! "email" = Some (VStr s) ->
  validate_email s = None ->
  exists errors,
    validate_Message validate_email validate_datetime raw = inl errors
    /\ In "email" errors.
Proof.
  intros Hk Hs. unfold validate_Message, required_email. rewrite Hk, Hs.
  destruct (required_str raw "name"), (optional_str raw "subject"),
    (required_str raw "body"), (optional_datetime validate_datetime raw "created_at");
    (eexists; split; [reflexivity |]);
    rewrite !in_app_iff; simpl; tauto.
Qed.

Lemma submit_contact_store_failure (msg : Message.t) (w w' : World) (e : Exception) :
  create_document "message" (OfModel msg) w = (inl e, w') ->
  submit_contact create_document msg w = (inl (mkHTTPException 500 (str e)), w').
Proof. intros H. unfold submit_contact. rewrite H. reflexivity. Qed.

(** The handler hands the gateway the validated model as it is, and the
    dict of the validated fields with [created_at] set to the clock. *)
Lemma submit_contact_hands_over (msg : Message.t) (w : World) :
  submit_contact create_document msg w
  = created_or_500 (create_document "message" (OfModel msg) w).
Proof.
  unfold submit_contact, created_or_500.
  destruct (create_document "message" (OfModel msg) w) as [[e | doc_id] w'];
    reflexivity.
Qed.

Lemma record_interaction_hands_over (payload : InteractionIn.t) (w : World) :
  record_interaction create_document payload w
  = created_or_500
      (create_document "interaction"
         (OfDict (<["created_at" := VDatetime (clock w)]>
                    (InteractionIn_model_dump payload))) w).
Proof.
  unfold record_interaction, created_or_500.
  destruct (create_document "interaction" _ w) as [[e | doc_id] w'];
    reflexivity.
Qed.

Lemma record_interaction_store_failure (payload : InteractionIn.t) (w w' : World)
      (e : Exception) :
  create_document "interaction"
    (OfDict (<["created_at" := VDatetime (clock w)]>
               (InteractionIn_model_dump payload))) w = (inl e, w') ->
  record_interaction create_document payload w
  = (inl (mkHTTPException 500 (str e)), w').
Proof. intros H. rewrite record_interaction_hands_over, H. reflexivity. Qed.

End WriteProperties.

(** C7 (as amended). On [POST /contact] and [POST /interactions] a body
    that fails validation (a syntactically invalid email, for one) is
    answered 422 with the world untouched, whatever the gateway is: the
    handler, and so the store, is never reached. When the insert raises,
    the handler raises [HTTPException] with status 500 and the failure's
    whole string description [str(e)] as its detail, and the route answers
    500 with that detail. *)
Theorem C7_write_path_errors :
  forall (validate_email : pystr -> option pystr)
         (validate_datetime : value -> option Z)
         (create_document : string -> Data -> M Exception N)
         (raw : dict) (w : World),
    (forall errors,
        validate_Message validate_email validate_datetime raw = inl errors ->
        POST_contact validate_email validate_datetime create_document raw w
        = (HTTP422 errors, w))
    /\ (forall s,
           raw !! "email" = Some (VStr s) -> validate_email s = None ->
           exists errors,
             In "email" errors
             /\ POST_contact validate_email validate_datetime create_document raw w
                = (HTTP422 errors, w))
    /\ (forall errors,
           validate_InteractionIn raw = inl errors ->
           POST_interactions create_document raw w = (HTTP422 errors, w))
    /\ (forall msg e w',
           validate_Message validate_email validate_datetime raw = inr msg ->
           create_document "message" (OfModel msg) w = (inl e, w') ->
           submit_contact create_document msg w
           = (inl (mkHTTPException 500 (str e)), w')
           /\ POST_contact validate_email validate_datetime create_document raw w
              = (HTTPError 500 (str e), w'))
    /\ (forall payload e w',
           validate_InteractionIn raw = inr payload ->
           create_document "interaction"
             (OfDict (<["created_at" := VDatetime (clock w)]>
                        (InteractionIn_model_dump payload))) w = (inl e, w') ->
           record_interaction create_document payload w
           = (inl (mkHTTPException 500 (str e)), w')
           /\ POST_interactions create_document raw w
              = (HTTPError 500 (str e), w')).
Proof.
  intros ve vd cd raw w. split; [| split; [| split; [| split]]].
  - intros errors H. apply POST_contact_rejects. exact H.
  - intros s Hk Hs.
    destruct (invalid_email_fails_validation ve vd raw s Hk Hs) as (errors & Hv & Hin).
    exists errors. split; [exact Hin |]. apply POST_contact_rejects. exact Hv.
  - intros errors H. apply POST_interactions_rejects. exact H.
  - intros msg e w' Hv Hc.
    pose proof (submit_contact_store_failure cd msg w w' e Hc) as Hs.
    split; [exact Hs |]. unfold POST_contact. rewrite Hv, Hs. reflexivity.
  - intros payload e w' Hv Hc.
    pose proof (record_interaction_store_failure cd payload w w' e Hc) as Hs.
    split; [exact Hs |]. unfold POST_interactions. rewrite Hv, Hs. reflexivity.
Qed.

(** An invalid address against a connected store, and a valid submission
    against a store whose insert fails. *)
Lemma C7_write_path_errors_witness :
  POST_contact sample_validate_email sample_validate_datetime
    gateway_create_document bad_email_body connected_world
  = (HTTP422 ["email"], connected_world)
  /\ POST_contact sample_validate_email sample_validate_datetime
       gateway_create_document contact_body (faulty_world long_description)
     = (HTTPError 500 long_description,
        snd (gateway_create_document "message" (OfModel contact_message)
               (faulty_world long_description))).
Proof.
  split.
  - apply (proj1 (C7_write_path_errors sample_validate_email
                    sample_validate_datetime gateway_create_document
                    bad_email_body connected_world)).
    vm_compute. reflexivity.
  - refine (proj2 (proj1 (proj2 (proj2 (proj2
             (C7_write_path_errors sample_validate_email sample_validate_datetime
                gateway_create_document contact_body
                (faulty_world long_description)))))
             contact_message (StoreWriteError long_description)
             (snd (gateway_create_document "message" (OfModel contact_message)
                     (faulty_world long_description))) _ _));
      vm_compute; reflexivity.
Defined.

(** C7 as stated fails: the detail of the 500 is not a truncated
    description. Whatever the bound, a failure whose description is one
    character longer comes back whole. *)
Lemma C7_detail_not_truncated : ~ (exists n : nat, contact_detail_truncated_to n).
Proof.
  intros [n H].
  destruct (H (fun _ _ w => (inl (StoreWriteError (repeat 120%N (S n))), w))
              contact_message connected_world
              (StoreWriteError (repeat 120%N (S n))) connected_world eq_refl)
    as (r & Hr & _ & Hd).
  unfold submit_contact in Hr. simpl in Hr. injection Hr as <-.
  simpl detail in Hd. unfold str in Hd.
  apply (f_equal (@length N)) in Hd.
  rewrite length_firstn in Hd. cbn [length] in Hd.
  rewrite repeat_length in Hd. lia.
Qed.

(** The same at the bound of 50 characters that [GET /test] uses for its
    own error strings: a description of 60 characters is the detail, whole. *)
Lemma contact_detail_sixty_characters :
  fst (submit_contact gateway_create_document contact_message
         (faulty_world long_description))
  = inl (mkHTTPException 500 long_description)
  /\ length long_description = 60%nat
  /\ long_description <> firstn 50 long_description.
Proof.
  split; [| split].
  - vm_compute. reflexivity.
  - vm_compute. reflexivity.
  - vm_compute. discriminate.
Qed.

(** ** [created_at] *)

Lemma validate_InteractionIn_ignores_created_at (raw : dict) (v : value) :
  validate_InteractionIn (<["created_at" := v]> raw) = validate_InteractionIn raw.
Proof.
  unfold validate_InteractionIn, required_str, optional_str.
  rewrite !lookup_insert_ne by discriminate. reflexivity.
Qed.

(** C8. [POST /interactions] hands the gateway the validated fields with
    [created_at] set to the server's clock; a [created_at] in the request
    body changes nothing: the route behaves as on the body without it. *)
Theorem C8_interaction_created_at :
  forall (create_document : string -> Data -> M Exception N)
         (raw : dict) (payload : InteractionIn.t) (w : World),
    validate_InteractionIn raw = inr payload ->
    let data := <["created_at" := VDatetime (clock w)]>
                  (InteractionIn_model_dump payload) in
    POST_interactions create_document raw w
    = respond (created_or_500 (create_document "interaction" (OfDict data) w))
    /\ data !! "created_at" = Some (VDatetime (clock w))
    /\ (forall v : value,
           POST_interactions create_document (<["created_at" := v]> raw) w
           = POST_interactions create_document raw w).
Proof.
  intros cd raw payload w Hv data. split; [| split].
  - unfold POST_interactions. rewrite Hv, record_interaction_hands_over. reflexivity.
  - apply lookup_insert_eq.
  - intros v. unfold POST_interactions.
    rewrite validate_InteractionIn_ignores_created_at. reflexivity.
Qed.

(** The caller sends a [created_at] of its own; the stored record carries
    the clock of the server. *)
Lemma C8_interaction_created_at_witness :
  POST_interactions gateway_create_document
    (<["created_at" := VStr (lit "1999-01-01T00:00:00Z")]> click_body) connected_world
  = POST_interactions gateway_create_document click_body connected_world
  /\ (<["created_at" := VDatetime 1700000000]> (InteractionIn_model_dump click_payload))
       !! "created_at" = Some (VDatetime 1700000000)
  /\ fst (POST_interactions gateway_create_document click_body connected_world)
     = HTTP200 (mkCreated (lit "ok") 0).
Proof.
  assert (Hv : validate_InteractionIn click_body = inr click_payload)
    by (vm_compute; reflexivity).
  pose proof (C8_interaction_created_at gateway_create_document click_body
                click_payload connected_world Hv) as T.
  cbv zeta in T. destruct T as (H1 & H2 & H3).
  split; [| split].
  - apply H3.
  - exact H2.
  - rewrite H1. vm_compute. reflexivity.
Defined.

Section ContactCreatedAt.

Variable validate_email : pystr -> option pystr.
Variable validate_datetime : value -> option Z.

Lemma validate_Message_omitted_created_at (raw : dict) (msg : Message.t) :
  validate_Message validate_email validate_datetime raw = inr msg ->
  raw !! "created_at" = None ->
  Message.created_at msg = None.
Proof.
  unfold validate_Message, optional_datetime. intros Hv Hk. rewrite Hk in Hv.
  destruct (required_str raw "name"), (required_email validate_email raw "email"),
    (optional_str raw "subject"), (required_str raw "body");
    try discriminate Hv.
  injection Hv as <-. reflexivity.
Qed.

Lemma created_at_absent_dump (msg : Message.t) :
  Message.created_at msg = None ->
  created_at_absent (Message_model_dump msg) = true.
Proof.
  intros H. unfold created_at_absent, Message_model_dump.
  rewrite !lookup_insert_ne by discriminate.
  rewrite lookup_insert_eq, H. reflexivity.
Qed.

End ContactCreatedAt.

(** C6. For a valid contact submission that omits [created_at], the
    validated record reaches the gateway with [created_at] absent, and the
    document the gateway hands to the store has [created_at] set to the
    server's clock; its other fields are the submitted ones. The gateway
    is the one modelled from the specification. *)
Theorem C6_contact_created_at_assigned :
  forall (validate_email : pystr -> option pystr)
         (validate_datetime : value -> option Z)
         (raw : dict) (msg : Message.t) (w : World) (st : Store),
    validate_Message validate_email validate_datetime raw = inr msg ->
    raw !! "created_at" = None ->
    db w = Some st ->
    fault st = None ->
    exists document : dict,
      POST_contact validate_email validate_datetime gateway_create_document raw w
      = (HTTP200 (mkCreated (lit "ok") (next_oid st)),
         mkWorld (clock w)
           (Some (mkStore
                    (<["message" := default [] (collections st !! "message")
                                    ++ [document]]> (collections st))
                    (fault st) (next_oid st + 1)%N))
           (gateway_log w ++ [CallInsert "message" (Message_model_dump msg)]))
      /\ Message.created_at msg = None
      /\ document !! "created_at" = Some (VDatetime (clock w))
      /\ (forall k : string,
             k <> "created_at" -> k <> "_id" ->
             document !! k = Message_model_dump msg !! k).
Proof.
  intros ve vd raw msg w st Hv Hk Hdb Hf.
  pose proof (validate_Message_omitted_created_at ve vd raw msg Hv Hk) as Hc.
  exists (<["_id" := VObjectId (next_oid st)]>
            (<["created_at" := VDatetime (clock w)]> (Message_model_dump msg))).
  split; [| split; [| split]].
  - unfold POST_contact. rewrite Hv.
    unfold submit_contact, gateway_create_document. rewrite Hdb, Hf.
    cbn [to_dict]. rewrite (created_at_absent_dump msg Hc). reflexivity.
  - exact Hc.
  - rewrite lookup_insert_ne by discriminate. apply lookup_insert_eq.
  - intros k H1 H2. rewrite !lookup_insert_ne by congruence. reflexivity.
Qed.

(** A submission of name, email and body against the connected store. *)
Lemma C6_contact_created_at_assigned_witness :
  exists document : dict,
    POST_contact sample_validate_email sample_validate_datetime
      gateway_create_document contact_body connected_world
    = (HTTP200 (mkCreated (lit "ok") 0),
       mkWorld 1700000000
         (Some (mkStore (<["message" := [document]]> ∅) None 1))
         [CallInsert "message" (Message_model_dump contact_message)])
    /\ Message.created_at contact_message = None
    /\ document !! "created_at" = Some (VDatetime 1700000000)
    /\ (forall k : string,
           k <> "created_at" -> k <> "_id" ->
           document !! k = Message_model_dump contact_message !! k).
Proof.
  assert (Hv : validate_Message sample_validate_email sample_validate_datetime
                 contact_body = inr contact_message) by (vm_compute; reflexivity).
  assert (Hk : contact_body !! "created_at" = None) by (vm_compute; reflexivity).
  exact (C6_contact_created_at_assigned sample_validate_email
           sample_validate_datetime contact_body contact_message connected_world
           empty_store Hv Hk eq_refl eq_refl).
Defined.

(** ** Schema introspection *)

(** Every entry of [get_schema] comes from a model class of the module, and
    lists as required exactly the fields declared without a default. *)
Lemma get_schema_entry (name : string) (entry : JsonSchema) :
  get_schema !! name = Some entry ->
  exists fields,
    In (name, PydanticModel fields) getmembers_schemas
    /\ name <> "BaseModel"
    /\ title entry = name
    /\ required entry = map field_name (List.filter is_required fields).
Proof.
  unfold get_schema. intros H.
  apply elem_of_list_to_map_2, list_elem_of_In in H.
  cbn in H.
  repeat (destruct H as [H | H];
          [injection H as <- <-; eexists; split;
           [cbn; tauto | split; [discriminate | split; reflexivity]] |]).
  destruct H.
Qed.

(** C9. [GET /schema] has an entry for each record kind of the API surface,
    Message, Interaction, Testimonial and Project, and the required list
    of each is the list of the fields the kind declares without a default
    (Message: name, email, body); so it is for every entry of the answer,
    which holds the two example kinds User and Product as well and nothing
    for [BaseModel]. *)
Theorem C9_schema_required_fields :
  required <$> (get_schema !! "Message") = Some ["name"; "email"; "body"]
  /\ required <$> (get_schema !! "Interaction") = Some ["session_id"; "event"]
  /\ required <$> (get_schema !! "Testimonial") = Some ["author"; "quote"]
  /\ required <$> (get_schema !! "Project") = Some ["title"; "description"]
  /\ required <$> (get_schema !! "User") = Some ["name"; "email"]
  /\ required <$> (get_schema !! "Product") = Some ["title"; "price"; "category"]
  /\ get_schema !! "BaseModel" = None
  /\ (forall (name : string) (entry : JsonSchema),
         get_schema !! name = Some entry ->
         exists fields,
           In (name, PydanticModel fields) getmembers_schemas
           /\ name <> "BaseModel"
           /\ title entry = name
           /\ required entry = map field_name (List.filter is_required fields)).
Proof.
  repeat (split; [vm_compute; reflexivity |]).
  exact get_schema_entry.
Qed.

(** The entry of Message. *)
Lemma C9_schema_required_fields_witness :
  exists fields,
    In ("Message", PydanticModel fields) getmembers_schemas
    /\ "Message" <> "BaseModel"
    /\ title (mkJsonSchema "Message"
                (map (fun f => (field_name f, annotation f)) Message_fields)
                ["name"; "email"; "body"]) = "Message"
    /\ ["name"; "email"; "body"] = map field_name (List.filter is_required fields).
Proof.
  refine (proj2 (proj2 (proj2 (proj2 (proj2 (proj2 (proj2
            C9_schema_required_fields))))))
            "Message"
            (mkJsonSchema "Message"
               (map (fun f => (field_name f, annotation f)) Message_fields)
               ["name"; "email"; "body"]) _).
  vm_compute. reflexivity.
Defined.

(** * Further properties of the handlers *)

Ltac dict_lookup :=
  repeat first [ rewrite lookup_insert_eq
               | rewrite lookup_insert_ne by discriminate ].

(** ** Diagnostics *)

Lemma length_truncated (prefix description : pystr) (n : nat) :
  (length (prefix ++ firstn n description) <= length prefix + n)%nat.
Proof.
  rewrite length_app. pose proof (firstn_le_length n description). lia.
Qed.

(** X1. The diagnostic report lists the first ten collection names the
    store reports when a handle exists, reading its name does not raise and
    the listing succeeds; in every other case it lists none. So it never
    lists more than ten. *)
Theorem test_database_collections_bounded :
  forall (db : option Database) (env : gmap string pystr),
    let names :=
      match db with
      | Some handle =>
          match name_attribute handle, list_collection_names handle with
          | AccessRaises _, _ => []
          | _, inl _ => []
          | _, inr listed => firstn 10 listed
          end
      | None => []
      end in
    test_database db env !! "collections" = Some (VList (map VStr names))
    /\ (length names <= 10)%nat.
Proof.
  intros db env. unfold test_database.
  destruct db as [[attribute [e | listed]] |];
    cbn [name_attribute list_collection_names];
    [destruct attribute as [v | | e'] | destruct attribute as [v | | e'] |];
    cbv zeta;
    (split; [dict_lookup; reflexivity |]);
    first [apply firstn_le_length | simpl; lia].
Qed.

(** X2. Whatever the store's error message, the ["database"] status of the
    report is a string of at most 75 characters: an error description
    enters it cut to 50 characters. *)
Theorem test_database_status_bounded :
  forall (db : option Database) (env : gmap string pystr),
    exists status : pystr,
      test_database db env !! "database" = Some (VStr status)
      /\ (length status <= 75)%nat.
Proof.
  intros db env. unfold test_database.
  destruct db as [[attribute [e | listed]] |];
    cbn [name_attribute list_collection_names];
    [destruct attribute as [v | | e'] | destruct attribute as [v | | e'] |];
    eexists; (split; [dict_lookup; reflexivity |]);
    first [ apply (Nat.le_trans _ _ _ (length_truncated _ _ 50));
            vm_compute; repeat constructor
          | vm_compute; repeat constructor ].
Qed.

(** X3. The ["database_url"] and ["database_name"] entries of the report
    tell only whether the two environment variables are set to a non-empty
    value; the name of the database handle, assigned earlier in the handler,
    is overwritten and never reported. *)
Theorem test_database_reports_environment_only :
  forall (db : option Database) (env : gmap string pystr),
    test_database db env !! "database_url"
    = Some (VStr (set_or_not env "DATABASE_URL"))
    /\ test_database db env !! "database_name"
       = Some (VStr (set_or_not env "DATABASE_NAME"))
    /\ (forall k : string,
           set_or_not env k = lit "✅ Set"
           \/ set_or_not env k = lit "❌ Not Set")
    /\ (forall k : string,
           set_or_not env k = lit "✅ Set" <->
           exists c v, env !! k = Some (c :: v)).
Proof.
  intros db env. split; [| split; [| split]].
  - unfold test_database. dict_lookup. reflexivity.
  - unfold test_database. dict_lookup. reflexivity.
  - intros k. unfold set_or_not, if_truthy.
    destruct (env !! k) as [[| c v] |]; auto.
  - intros k. unfold set_or_not, if_truthy.
    destruct (env !! k) as [[| c v] |]; split;
      try (intros H; vm_compute in H; discriminate H);
      try (intros (c' & v' & H); discriminate H);
      eauto.
Qed.


(** ** The listing handlers beyond the fallback *)

Lemma clean_all_Forall2 {A} (validate : dict -> list string + A)
      (docs : list dict) (cleaned : list A) :
  clean_all validate docs = inr cleaned <->
  Forall2 (fun d a => validate (delete "_id" d) = inr a) docs cleaned.
Proof.
  revert cleaned. induction docs as [| d docs IH]; intros cleaned; simpl.
  - split.
    + intros H. injection H as <-. constructor.
    + intros H. inversion H. reflexivity.
  - destruct (validate (delete "_id" d)) as [errors | a] eqn:Ed.
    + split; [discriminate |]. intros H. inversion H; subst. congruence.
    + destruct (clean_all validate docs) as [errors | rest].
      * split; [discriminate |]. intros H. inversion H as [| ? y ? l' Hy Hl]; subst.
        apply IH in Hl. discriminate Hl.
      * split.
        -- intros H. injection H as <-. constructor; [exact Ed |].
           apply IH. reflexivity.
        -- intros H. inversion H as [| ? y ? l' Hy Hl]; subst.
           apply IH in Hl. injection Hl as <-.
           rewrite Ed in Hy. injection Hy as <-. reflexivity.
Qed.

Lemma clean_all_invalid {A} (validate : dict -> list string + A)
      (docs : list dict) (d : dict) (errors : list string) :
  In d docs ->
  validate (delete "_id" d) = inl errors ->
  exists errors', clean_all validate docs = inl errors'.
Proof.
  induction docs as [| d0 docs IH]; intros Hin Hd; [destruct Hin |].
  simpl. destruct Hin as [-> | Hin].
  - rewrite Hd. eauto.
  - destruct (validate (delete "_id" d0)) as [e0 | a]; [eauto |].
    destruct (IH Hin Hd) as [errors' ->]. eauto.
Qed.

(** X5. The two listing endpoints never answer with an empty list,
    whatever the store returns or raises. *)
Theorem listing_never_empty :
  forall (get_documents : string -> M Exception (list dict)) (w : World),
    fst (get_testimonials get_documents w) <> []
    /\ fst (get_projects get_documents w) <> [].
Proof.
  intros gd w. split.
  - unfold get_testimonials.
    destruct (gd "testimonial" w) as [[e | docs] w']; [discriminate |].
    destruct (clean_all validate_Testimonial docs) as [errors | [| a cleaned]];
      discriminate.
  - unfold get_projects.
    destruct (gd "project" w) as [[e | docs] w']; [discriminate |].
    destruct (clean_all validate_Project docs) as [errors | [| a cleaned]];
      discriminate.
Qed.

(** X6. When the store returns at least one document and every document
    validates once its ["_id"] is dropped, each listing endpoint answers
    with the validated documents, one per stored document and in the
    store's order, and no fallback item. *)
Theorem listing_serves_stored_documents :
  forall (get_documents : string -> M Exception (list dict)) (w w' : World)
         (docs : list dict),
    docs <> [] ->
    (forall cleaned,
        get_documents "testimonial" w = (inr docs, w') ->
        Forall2 (fun d a => validate_Testimonial (delete "_id" d) = inr a)
          docs cleaned ->
        get_testimonials get_documents w = (cleaned, w')
        /\ length cleaned = length docs)
    /\ (forall cleaned,
           get_documents "project" w = (inr docs, w') ->
           Forall2 (fun d a => validate_Project (delete "_id" d) = inr a)
             docs cleaned ->
           get_projects get_documents w = (cleaned, w')
           /\ length cleaned = length docs).
Proof.
  intros gd w w' docs Hne. split.
  - intros cleaned Hf Hall.
    pose proof Hall as Hlen. apply Forall2_length in Hlen.
    apply clean_all_Forall2 in Hall.
    unfold get_testimonials. rewrite Hf, Hall.
    destruct cleaned as [| a cleaned].
    + destruct docs; [congruence | discriminate Hlen].
    + split; [reflexivity | symmetry; exact Hlen].
  - intros cleaned Hf Hall.
    pose proof Hall as Hlen. apply Forall2_length in Hlen.
    apply clean_all_Forall2 in Hall.
    unfold get_projects. rewrite Hf, Hall.
    destruct cleaned as [| a cleaned].
    + destruct docs; [congruence | discriminate Hlen].
    + split; [reflexivity | symmetry; exact Hlen].
Qed.

(** The store with one testimonial. *)
Lemma listing_serves_stored_documents_witness :
  get_testimonials gateway_get_documents stocked_world
  = ([grace], snd (gateway_get_documents "testimonial" stocked_world))
  /\ length [grace] = length [grace_document].
Proof.
  refine (proj1 (listing_serves_stored_documents gateway_get_documents
                   stocked_world
                   (snd (gateway_get_documents "testimonial" stocked_world))
                   [grace_document] _) [grace] _ _).
  - discriminate.
  - vm_compute. reflexivity.
  - constructor; [vm_compute; reflexivity | constructor].
Defined.

(** X7. One stored document that fails validation makes a listing
    endpoint answer with its fallback list: the valid documents stored
    beside it are not served. *)
Theorem listing_one_invalid_document_hides_all :
  forall (get_documents : string -> M Exception (list dict)) (w w' : World)
         (docs : list dict) (d : dict) (errors : list string),
    In d docs ->
    (get_documents "testimonial" w = (inr docs, w') ->
     validate_Testimonial (delete "_id" d) = inl errors ->
     get_testimonials get_documents w = (TESTIMONIALS_ON_EXCEPT, w'))
    /\ (get_documents "project" w = (inr docs, w') ->
        validate_Project (delete "_id" d) = inl errors ->
        get_projects get_documents w = (PROJECTS_ON_EXCEPT, w')).
Proof.
  intros gd w w' docs d errors Hin. split; intros Hf Hd.
  - destruct (clean_all_invalid validate_Testimonial docs d errors Hin Hd)
      as [errors' He].
    apply (get_testimonials_validation_raises gd w w' docs errors' Hf He).
  - destruct (clean_all_invalid validate_Project docs d errors Hin Hd)
      as [errors' He].
    apply (get_projects_validation_raises gd w w' docs errors' Hf He).
Qed.

(** A valid testimonial stored before one without a quote. *)
Lemma listing_one_invalid_document_hides_all_witness :
  get_testimonials gateway_get_documents spoiled_world
  = (TESTIMONIALS_ON_EXCEPT,
     snd (gateway_get_documents "testimonial" spoiled_world)).
Proof.
  refine (proj1 (listing_one_invalid_document_hides_all gateway_get_documents
                   spoiled_world
                   (snd (gateway_get_documents "testimonial" spoiled_world))
                   [grace_document; quoteless_document] quoteless_document
                   ["quote"] _) _ _).
  - right. left. reflexivity.
  - vm_compute. reflexivity.
  - vm_compute. reflexivity.
Defined.

(** ** Validation *)

(** X8. A key that a model does not declare changes nothing in its
    validation: the stored ["_id"] and any other extra field of a document
    or a request body are ignored. *)
Theorem validators_ignore_undeclared_keys :
  forall (validate_email : pystr -> option pystr)
         (validate_datetime : value -> option Z)
         (d : dict) (k : string) (v : value),
    (~ In k ["author"; "role"; "quote"; "avatar_url"] ->
     validate_Testimonial (<[k := v]> d) = validate_Testimonial d)
    /\ (~ In k ["title"; "description"; "tags"; "image_url"; "demo_url"; "source_url"] ->
        validate_Project (<[k := v]> d) = validate_Project d)
    /\ (~ In k ["session_id"; "event"; "value"; "path"] ->
        validate_InteractionIn (<[k := v]> d) = validate_InteractionIn d)
    /\ (~ In k ["name"; "email"; "subject"; "body"; "created_at"] ->
        validate_Message validate_email validate_datetime (<[k := v]> d)
        = validate_Message validate_email validate_datetime d)
    /\ (~ In k ["name"; "email"; "subject"; "message"] ->
        validate_SuggestionRequest validate_email (<[k := v]> d)
        = validate_SuggestionRequest validate_email d).
Proof.
  intros ve vd d k v.
  split; [| split; [| split; [| split]]]; intros Hk; simpl in Hk.
  - unfold validate_Testimonial, required_str, optional_str.
    rewrite !lookup_insert_ne by (intros ->; tauto). reflexivity.
  - unfold validate_Project, required_str, optional_str, str_list.
    rewrite !lookup_insert_ne by (intros ->; tauto). reflexivity.
  - unfold validate_InteractionIn, required_str, optional_str.
    rewrite !lookup_insert_ne by (intros ->; tauto). reflexivity.
  - unfold validate_Message, required_str, optional_str, required_email,
      optional_datetime.
    rewrite !lookup_insert_ne by (intros ->; tauto). reflexivity.
  - unfold validate_SuggestionRequest, optional_str, optional_email.
    rewrite !lookup_insert_ne by (intros ->; tauto). reflexivity.
Qed.

(** A fetched testimonial validates the same with its ["_id"] left in. *)
Lemma validators_ignore_undeclared_keys_witness :
  validate_Testimonial grace_document = inr grace.
Proof.
  unfold grace_document.
  rewrite (proj1 (validators_ignore_undeclared_keys sample_validate_email
                    sample_validate_datetime
                    (<["author" := VStr (lit "Grace")]>
                       (<["quote" := VStr (lit "Shipped on time.")]> ∅))
                    "_id" (VObjectId 7))).
  - vm_compute. reflexivity.
  - simpl. intros [H | [H | [H | [H | []]]]]; discriminate H.
Defined.

(** X9. Dumping a validated interaction and validating the dump gives the
    interaction back: [model_dump] loses nothing that validation reads. *)
Theorem InteractionIn_dump_validate :
  forall payload : InteractionIn.t,
    validate_InteractionIn (InteractionIn_model_dump payload) = inr payload.
Proof.
  intros [s e v p].
  unfold validate_InteractionIn, InteractionIn_model_dump, required_str,
    optional_str; cbn [InteractionIn.session_id InteractionIn.event
    InteractionIn.value InteractionIn.path].
  dict_lookup. destruct v, p; reflexivity.
Qed.

Lemma validate_Message_errors (ve : pystr -> option pystr) (vd : value -> option Z)
      (raw : dict) (errors : list string) :
  validate_Message ve vd raw = inl errors ->
  errors <> []
  /\ incl errors ["name"; "email"; "subject"; "body"; "created_at"].
Proof.
  unfold validate_Message.
  destruct (required_str raw "name"), (required_email ve raw "email"),
    (optional_str raw "subject"), (required_str raw "body"),
    (optional_datetime vd raw "created_at");
    intros H; try discriminate H; injection H as <-;
    (split; [discriminate | intros f Hf; simpl in Hf |- *; tauto]).
Qed.

Lemma validate_InteractionIn_errors (raw : dict) (errors : list string) :
  validate_InteractionIn raw = inl errors ->
  errors <> [] /\ incl errors ["session_id"; "event"; "value"; "path"].
Proof.
  unfold validate_InteractionIn.
  destruct (required_str raw "session_id"), (required_str raw "event"),
    (optional_str raw "value"), (optional_str raw "path");
    intros H; try discriminate H; injection H as <-;
    (split; [discriminate | intros f Hf; simpl in Hf |- *; tauto]).
Qed.

(** X10. For a body that is a JSON object the two write routes answer in
    one of three ways only, each tied to what validation and the gateway
    did: 422 with the non-empty list of the declared fields that failed
    and the world untouched; 200 with status "ok" and the very identifier
    [create_document] returned; 500 with [str(e)] of the very exception
    [create_document] raised. In the last two the world is the one the
    gateway left. *)
Theorem write_routes_answers :
  forall (validate_email : pystr -> option pystr)
         (validate_datetime : value -> option Z)
         (create_document : string -> Data -> M Exception N)
         (raw : dict) (w : World),
    ((exists errors,
         validate_Message validate_email validate_datetime raw = inl errors
         /\ errors <> []
         /\ incl errors ["name"; "email"; "subject"; "body"; "created_at"]
         /\ POST_contact validate_email validate_datetime create_document raw w
            = (HTTP422 errors, w))
     \/ (exists msg doc_id w',
            validate_Message validate_email validate_datetime raw = inr msg
            /\ create_document "message" (OfModel msg) w = (inr doc_id, w')
            /\ POST_contact validate_email validate_datetime create_document raw w
               = (HTTP200 (mkCreated (lit "ok") doc_id), w'))
     \/ (exists msg e w',
            validate_Message validate_email validate_datetime raw = inr msg
            /\ create_document "message" (OfModel msg) w = (inl e, w')
            /\ POST_contact validate_email validate_datetime create_document raw w
               = (HTTPError 500 (str e), w')))
    /\ ((exists errors,
            validate_InteractionIn raw = inl errors
            /\ errors <> []
            /\ incl errors ["session_id"; "event"; "value"; "path"]
            /\ POST_interactions create_document raw w = (HTTP422 errors, w))
        \/ (exists payload doc_id w',
               validate_InteractionIn raw = inr payload
               /\ create_document "interaction"
                    (OfDict (<["created_at" := VDatetime (clock w)]>
                               (InteractionIn_model_dump payload))) w
                  = (inr doc_id, w')
               /\ POST_interactions create_document raw w
                  = (HTTP200 (mkCreated (lit "ok") doc_id), w'))
        \/ (exists payload e w',
               validate_InteractionIn raw = inr payload
               /\ create_document "interaction"
                    (OfDict (<["created_at" := VDatetime (clock w)]>
                               (InteractionIn_model_dump payload))) w
                  = (inl e, w')
               /\ POST_interactions create_document raw w
                  = (HTTPError 500 (str e), w'))).
Proof.
  intros ve vd cd raw w. split.
  - unfold POST_contact.
    destruct (validate_Message ve vd raw) as [errors | msg] eqn:Hv.
    + left. exists errors.
      destruct (validate_Message_errors ve vd raw errors Hv). auto.
    + rewrite submit_contact_hands_over.
      destruct (cd "message" (OfModel msg) w) as [[e | doc_id] w'] eqn:Hc.
      * right. right. exists msg, e, w'. auto.
      * right. left. exists msg, doc_id, w'. auto.
  - unfold POST_interactions.
    destruct (validate_InteractionIn raw) as [errors | payload] eqn:Hv.
    + left. exists errors.
      destruct (validate_InteractionIn_errors raw errors Hv). auto.
    + rewrite record_interaction_hands_over.
      destruct (cd "interaction" _ w) as [[e | doc_id] w'] eqn:Hc.
      * right. right. exists payload, e, w'. auto.
      * right. left. exists payload, doc_id, w'. auto.
Qed.

(** X11. Whatever the request body holds, the dict that
    [POST /interactions] hands to the gateway has exactly five keys, the
    four declared fields and [created_at], with the validated values. *)
Theorem record_interaction_record_keys :
  forall (create_document : string -> Data -> M Exception N)
         (payload : InteractionIn.t) (w : World),
    exists data : dict,
      record_interaction create_document payload w
      = created_or_500 (create_document "interaction" (OfDict data) w)
      /\ dom data
         = ({["session_id"; "event"; "value"; "path"; "created_at"]} : gset string)
      /\ data !! "session_id" = Some (VStr (InteractionIn.session_id payload))
      /\ data !! "event" = Some (VStr (InteractionIn.event payload))
      /\ data !! "value" = Some (opt_value (InteractionIn.value payload))
      /\ data !! "path" = Some (opt_value (InteractionIn.path payload)).
Proof.
  intros cd payload w.
  exists (<["created_at" := VDatetime (clock w)]> (InteractionIn_model_dump payload)).
  split; [apply record_interaction_hands_over |].
  unfold InteractionIn_model_dump.
  split; [| repeat split; dict_lookup; reflexivity].
  rewrite !dom_insert_L, dom_empty_L. set_solver.
Qed.

(** X12. On [POST /contact] the caller does choose [created_at]: a value
    the datetime parser accepts is the [created_at] of the record handed to
    the gateway. *)
Theorem contact_created_at_from_caller :
  forall (validate_email : pystr -> option pystr)
         (validate_datetime : value -> option Z)
         (create_document : string -> Data -> M Exception N)
         (raw : dict) (msg : Message.t) (v : value) (w : World),
    validate_Message validate_email validate_datetime raw = inr msg ->
    raw !! "created_at" = Some v ->
    v <> VNone ->
    validate_datetime v = Message.created_at msg
    /\ (exists t, Message.created_at msg = Some t)
    /\ POST_contact validate_email validate_datetime create_document raw w
       = respond (created_or_500 (create_document "message" (OfModel msg) w)).
Proof.
  intros ve vd cd raw msg v w Hv Hk Hn.
  assert (Hc : vd v = Message.created_at msg
               /\ exists t, Message.created_at msg = Some t).
  { unfold validate_Message, optional_datetime in Hv. rewrite Hk in Hv.
    destruct (required_str raw "name"), (required_email ve raw "email"),
      (optional_str raw "subject"), (required_str raw "body");
      destruct v; try congruence;
      destruct (vd _) as [parsed |]; try discriminate Hv;
      injection Hv as <-; eauto. }
  destruct Hc as [Hc1 Hc2]. split; [exact Hc1 | split; [exact Hc2 |]].
  unfold POST_contact. rewrite Hv, submit_contact_hands_over. reflexivity.
Qed.

(** A submission dated at the epoch. *)
Lemma contact_created_at_from_caller_witness :
  sample_validate_datetime (VInt 0) = Message.created_at backdated_message
  /\ (exists t, Message.created_at backdated_message = Some t)
  /\ POST_contact sample_validate_email sample_validate_datetime
       gateway_create_document backdated_body connected_world
     = respond (created_or_500
                  (gateway_create_document "message" (OfModel backdated_message)
                     connected_world)).
Proof.
  refine (contact_created_at_from_caller sample_validate_email
            sample_validate_datetime gateway_create_document backdated_body
            backdated_message (VInt 0) connected_world _ _ _).
  - vm_compute. reflexivity.
  - vm_compute. reflexivity.
  - discriminate.
Defined.

(** ** The suggestion generator, further *)

(** X13. The suggestion always has a non-empty subject and a non-empty
    message, whatever the request holds. *)
Theorem suggestion_never_empty :
  forall (unicode_lower : pystr -> pystr) (p : SuggestionRequest.t),
    SuggestionResponse.subject (ai_suggest unicode_lower p) <> []
    /\ SuggestionResponse.message (ai_suggest unicode_lower p) <> [].
Proof.
  intros ul p. rewrite ai_suggest_subject, ai_suggest_message. split.
  - unfold subject_when_nonempty.
    destruct (message_is_long p);
      [intros H; vm_compute in H; discriminate H |].
    destruct (subject_has_keyword ul p);
      [intros H; vm_compute in H; discriminate H |].
    destruct (SuggestionRequest.subject p) as [[| c s] |];
      try discriminate; intros H; vm_compute in H; discriminate H.
  - unfold body_when_nonempty, body_template. intros H.
    apply app_eq_nil in H as [H _]. vm_compute in H. discriminate H.
Qed.

(** X14. The email of a suggestion request never changes the suggestion;
    yet a body whose email is no valid address is rejected with 422 and the
    world untouched. *)
Theorem suggestion_ignores_email :
  forall (unicode_lower : pystr -> pystr) (validate_email : pystr -> option pystr)
         (n e e' s m : option pystr) (raw : dict) (w : World),
    ai_suggest unicode_lower (SuggestionRequest.mk n e s m)
    = ai_suggest unicode_lower (SuggestionRequest.mk n e' s m)
    /\ (forall address,
           raw !! "email" = Some (VStr address) ->
           validate_email address = None ->
           exists errors,
             In "email" errors
             /\ POST_ai_suggest unicode_lower validate_email raw w
                = (HTTP422 errors, w)).
Proof.
  intros ul ve n e e' s m raw w. split.
  - rewrite !ai_suggest_eta. reflexivity.
  - intros address Hk Ha.
    unfold POST_ai_suggest, validate_SuggestionRequest, optional_email.
    rewrite Hk, Ha.
    destruct (optional_str raw "name"), (optional_str raw "subject"),
      (optional_str raw "message");
      (eexists; split; [| reflexivity]); rewrite !in_app_iff; simpl; tauto.
Qed.

(** A body with a malformed email and nothing else. *)
Lemma suggestion_ignores_email_witness :
  exists errors,
    In "email" errors
    /\ POST_ai_suggest identity_lower sample_validate_email
         (<["email" := VStr (lit "not-an-address")]> ∅) connected_world
       = (HTTP422 errors, connected_world).
Proof.
  refine (proj2 (suggestion_ignores_email identity_lower sample_validate_email
                   None None None None None
                   (<["email" := VStr (lit "not-an-address")]> ∅) connected_world)
            (lit "not-an-address") _ _).
  - vm_compute. reflexivity.
  - vm_compute. reflexivity.
Defined.

(** X15. The suggestion reads the message through two things only: its
    first 80 characters decide the body, and whether it is longer than 120
    characters decides the subject. *)
Theorem suggestion_reads_message_prefix :
  forall (unicode_lower : pystr -> pystr) (n e s : option pystr) (m m' : pystr),
    (firstn 80 m = firstn 80 m' ->
     SuggestionResponse.message
       (ai_suggest unicode_lower (SuggestionRequest.mk n e s (Some m)))
     = SuggestionResponse.message
         (ai_suggest unicode_lower (SuggestionRequest.mk n e s (Some m'))))
    /\ ((120 <? length m)%nat = (120 <? length m')%nat ->
        SuggestionResponse.subject
          (ai_suggest unicode_lower (SuggestionRequest.mk n e s (Some m)))
        = SuggestionResponse.subject
            (ai_suggest unicode_lower (SuggestionRequest.mk n e s (Some m')))).
Proof.
  intros ul n e s m m'. split; intros H.
  - rewrite !ai_suggest_message. unfold body_when_nonempty;
      cbn [SuggestionRequest.name SuggestionRequest.message].
    destruct m as [| c m], m' as [| c' m']; try discriminate H;
      [reflexivity | rewrite H; reflexivity].
  - rewrite !ai_suggest_subject.
    unfold subject_when_nonempty, message_is_long, subject_has_keyword;
      cbn [SuggestionRequest.subject SuggestionRequest.message].
    rewrite H. reflexivity.
Qed.

(** Two messages of 81 characters that differ in the last one. *)
Lemma suggestion_reads_message_prefix_witness :
  SuggestionResponse.message
    (ai_suggest identity_lower
       (SuggestionRequest.mk None None None (Some (repeat 97%N 80 ++ [98%N]))))
  = SuggestionResponse.message
      (ai_suggest identity_lower
         (SuggestionRequest.mk None None None (Some (repeat 97%N 80 ++ [99%N])))).
Proof.
  apply (proj1 (suggestion_reads_message_prefix identity_lower None None None
                  (repeat 97%N 80 ++ [98%N]) (repeat 97%N 80 ++ [99%N]))).
  vm_compute. reflexivity.
Defined.

(** X16. For an ASCII subject and a message of at most 120 characters, the
    "collaborate" subject is returned exactly when some stretch of the
    caller's subject spells hire, project or collab up to the case of its
    letters: inside a longer word too. *)
Theorem collaborate_subject_ascii :
  forall (unicode_lower : pystr -> pystr) (n e m : option pystr) (s : pystr),
    forallb is_ascii s = true ->
    message_is_long (SuggestionRequest.mk n e (Some s) m) = false ->
    (SuggestionResponse.subject
       (ai_suggest unicode_lower (SuggestionRequest.mk n e (Some s) m))
     = COLLABORATE_SUBJECT
     <-> exists k before t rest,
           In k KEYWORDS /\ s = before ++ t ++ rest /\ map ascii_lower t = k).
Proof.
  intros ul n e m s Hs Hm. rewrite ai_suggest_subject.
  unfold subject_when_nonempty. rewrite Hm.
  unfold subject_has_keyword; cbn [SuggestionRequest.subject].
  rewrite <- (subject_keyword_ascii ul s Hs).
  destruct (existsb (fun k => contains k (lower ul s)) KEYWORDS).
  - split; reflexivity.
  - split; [| discriminate]. intros H. exfalso.
    destruct s as [| c s].
    + vm_compute in H. discriminate H.
    + rewrite H in Hs. vm_compute in Hs. discriminate Hs.
Qed.

(** "Big PROJECTS ahead" *)
Lemma collaborate_subject_ascii_witness :
  SuggestionResponse.subject
    (ai_suggest identity_lower
       (SuggestionRequest.mk None None (Some (lit "Big PROJECTS ahead")) None))
  = COLLABORATE_SUBJECT
  <-> exists k before t rest,
        In k KEYWORDS
        /\ lit "Big PROJECTS ahead" = before ++ t ++ rest
        /\ map ascii_lower t = k.
Proof.
  apply (collaborate_subject_ascii identity_lower None None None
           (lit "Big PROJECTS ahead")); vm_compute; reflexivity.
Defined.

(** ** Schema introspection, further *)

(** X17. [GET /schema] answers with exactly six entries, one for every
    model class of [schemas.py]: the two example kinds User and Product
    are exposed beside the four the API uses. The entry of a class has its
    name as title, all its declared fields as properties in declaration
    order, and the fields without default as required. *)
Theorem get_schema_complete :
  dom get_schema
  = ({["Interaction"; "Message"; "Product"; "Project"; "Testimonial"; "User"]}
     : gset string)
  /\ (forall (name : string) (fields : list FieldInfo),
         In (name, PydanticModel fields) getmembers_schemas ->
         name <> "BaseModel" ->
         get_schema !! name
         = Some (mkJsonSchema name
                   (map (fun f => (field_name f, annotation f)) fields)
                   (map field_name (List.filter is_required fields)))).
Proof.
  split.
  - vm_compute. reflexivity.
  - intros name fields Hin Hne. cbn in Hin.
    repeat (destruct Hin as [Hin | Hin];
            [try discriminate Hin; injection Hin as <- <-;
             first [congruence | vm_compute; reflexivity] |]).
    destruct Hin.
Qed.

(** The entry of Testimonial. *)
Lemma get_schema_complete_witness :
  get_schema !! "Testimonial"
  = Some (mkJsonSchema "Testimonial"
            [("author", TStr); ("role", TOptional TStr); ("quote", TStr);
             ("avatar_url", TOptional TStr)]
            ["author"; "quote"]).
Proof.
  refine (proj2 get_schema_complete "Testimonial" Testimonial_fields _ _).
  - cbn. tauto.
  - discriminate.
Defined.
